(** * Verification of the untis-api-client period model

    Shallow embedding of [Period], [PeriodElement] (lesson occurrences and
    their elements), of the schedule reconstruction engine and of the
    JSON-RPC transport's cookie handling, with the properties the
    specification states about them.

    Conventions of the embedding:
    - a JavaScript [number] that holds an id or a lesson number is a [Z];
    - a [string] is a [String.string]; [null]/[undefined] is [None];
    - a thrown exception is the [Throw] arm of [completion];
    - objects are values: the constructor's in-place sort of the caller's
      arrays is modelled by the sorted copy it stores;
    - the time zone of the host is a parameter [tz] of everything that
      reads a [Date] in local time: the weekday of a date and the start
      instant of an occurrence;
    - the cookie object is the list of its own properties in the order of
      their creation; [Object.entries] lists from it as the language
      prescribes. *)

From Stdlib Require Import ZArith List String Ascii Bool Lia.
From Stdlib Require Import Permutation Sorted DecimalString.
From Stdlib Require DecimalPos DecimalZ.
Import ListNotations.

Local Open Scope string_scope.
Local Open Scope list_scope.
Local Open Scope Z_scope.

(** ** Outcomes of fallible code *)

Inductive exn : Type :=
| ValidationError (offending : string)
| TypeError
| HTTPStatusError (expected : Z) (got : string)
| RPCError (code : Z) (message : string).

Inductive completion (A : Type) : Type :=
| Return (a : A)
| Throw (e : exn).

Arguments Return {A} a.
Arguments Throw {A} e.

Definition isReturn {A} (c : completion A) : bool :=
  match c with Return _ => true | Throw _ => false end.

(** ** Array.prototype.sort and Array.prototype.join

    [sort] with a comparator is stable; for a consistent comparator
    the result is the stable sorted arrangement, computed here by insertion
    from the right. The comparator returns a number; a result [<= 0] keeps
    the left argument first. *)

Section ArraySort.
Context {A : Type}.
Variable cmp : A -> A -> Z.

Fixpoint insertSorted (x : A) (l : list A) : list A :=
  match l with
  | [] => [x]
  | y :: ys => if cmp x y <=? 0 then x :: y :: ys else y :: insertSorted x ys
  end.

Fixpoint sort (l : list A) : list A :=
  match l with
  | [] => []
  | x :: xs => insertSorted x (sort xs)
  end.
End ArraySort.

Fixpoint join (sep : string) (l : list string) : string :=
  match l with
  | [] => EmptyString
  | [s] => s
  | s :: rest => (s ++ sep ++ join sep rest)%string
  end.

(** Number-to-string conversion of an integral number. *)
Definition numberToString (z : Z) : string :=
  NilZero.string_of_int (Z.to_int z).

(** ** Calendar primitives

    [lib/timeformat] ([testDate], [testTime]) and the host's [Date] are not
    part of the sources at hand. *)

Definition digitValue (c : ascii) : option Z :=
  let n := Z.of_nat (nat_of_ascii c) in
  if (48 <=? n) && (n <=? 57) then Some (n - 48) else None.

Definition twoDigits (a b : ascii) : option Z :=
  match digitValue a, digitValue b with
  | Some x, Some y => Some (10 * x + y)
  | _, _ => None
  end.

Definition fourDigits (a b c d : ascii) : option Z :=
  match twoDigits a b, twoDigits c d with
  | Some x, Some y => Some (100 * x + y)
  | _, _ => None
  end.

Definition isDash (c : ascii) : bool := Ascii.eqb c "-"%char.
Definition isColon (c : ascii) : bool := Ascii.eqb c ":"%char.

(** Fields of a [yyyy-mm-dd] string: year, month in 1..12, day in 1..31. *)
Definition dateFields (s : string) : option (Z * Z * Z) :=
  match s with
  | String y1 (String y2 (String y3 (String y4 (String s1
      (String m1 (String m2 (String s2 (String d1 (String d2 EmptyString))))))))) =>
      match fourDigits y1 y2 y3 y4, twoDigits m1 m2, twoDigits d1 d2 with
      | Some y, Some m, Some d =>
          if isDash s1 && isDash s2
             && (1 <=? m) && (m <=? 12) && (1 <=? d) && (d <=? 31)
          then Some (y, m, d) else None
      | _, _, _ => None
      end
  | _ => None
  end.

(** Minutes since midnight of an [hh:mm] string, hours 0..23, minutes 0..59. *)
Definition timeOfDay (s : string) : option Z :=
  match s with
  | String h1 (String h2 (String c (String m1 (String m2 EmptyString)))) =>
      match twoDigits h1 h2, twoDigits m1 m2 with
      | Some h, Some m =>
          if isColon c && (h <=? 23) && (m <=? 59) then Some (60 * h + m) else None
      | _, _ => None
      end
  | _ => None
  end.

(** Modelled from the spec: [testDate] of lib/timeformat, which is missing;
    the date must match the canonical [yyyy-mm-dd] calendar-day format. *)
Definition testDate (s : string) : bool :=
  match dateFields s with Some _ => true | None => false end.

(** Modelled from the spec: [testTime] of lib/timeformat, which is missing;
    a time must be a valid time of day written [hh:mm]. *)
Definition testTime (s : string) : bool :=
  match timeOfDay s with Some _ => true | None => false end.

(** Days since 1970-01-01 of a proleptic Gregorian date; linear in the day
    of the month, so that a day past the month's end rolls over. *)
Definition daysFromCivil (y m d : Z) : Z :=
  let y' := if m <=? 2 then y - 1 else y in
  let era := y' / 400 in
  let yoe := y' - era * 400 in
  let mp := if 2 <? m then m - 3 else m + 9 in
  let doy := (153 * mp + 2) / 5 + d - 1 in
  let doe := yoe * 365 + yoe / 4 - yoe / 100 + doy in
  era * 146097 + doe - 719468.

(** The day number of a date string: [new Date(s).valueOf()] is that many
    days after the epoch, a date-only string being read as midnight UTC;
    [None] is the invalid date, whose value is NaN. *)
Definition dateValue (s : string) : option Z :=
  match dateFields s with
  | Some (y, m, d) => Some (daysFromCivil y m d)
  | None => None
  end.

(** The time zone of the host, by its two offsets in milliseconds:
    [offsetAtUtc t] is the offset of local time from UTC at the instant
    [t], and [offsetAtLocal t] the offset by which the local wall-clock
    value [t] is read (for a wall-clock value that a clock change skips
    or repeats, the offset before the change). *)
Record timeZone : Type := {
  offsetAtUtc : Z -> Z;
  offsetAtLocal : Z -> Z
}.

Definition msPerMinute : Z := 60000.
Definition msPerDay : Z := 86400000.

(** [new Date(s).getDay()] for a date string: the weekday, in the host's
    zone, of the instant midnight UTC of that date; 0 is Sunday; NaN for
    the invalid date. *)
Definition getDay (tz : timeZone) (s : string) : option Z :=
  match dateValue s with
  | Some days =>
      let t := days * msPerDay in
      Some (((t + offsetAtUtc tz t) / msPerDay + 4) mod 7)
  | None => None
  end.

(** The wall-clock value of a date and a time of day, in milliseconds. *)
Definition wallClock (days mins : Z) : Z := (days * 1440 + mins) * msPerMinute.

(** [new Date(date + "T" + time).valueOf()], in milliseconds: a date-time
    string without an offset is read as local time of the host's zone. *)
Definition dateTimeValue (tz : timeZone) (date time : string) : option Z :=
  match dateValue date, timeOfDay time with
  | Some days, Some mins =>
      Some (wallClock days mins - offsetAtLocal tz (wallClock days mins))
  | _, _ => None
  end.

(** Strict equality [===] of two numbers that may be NaN. *)
Definition numberStrictEq (a b : option Z) : bool :=
  match a, b with
  | Some x, Some y => x =? y
  | _, _ => false
  end.

(** Subtraction of two numbers that may be NaN, as a sort comparator's
    result: NaN counts as [+0] there. *)
Definition comparatorDifference (a b : option Z) : Z :=
  match a, b with
  | Some x, Some y => x - y
  | _, _ => 0
  end.

(** ** Elements of a period (src/unnamed/part_000, lines 284-342) *)

Module PeriodElement.

(** The raw [element] record of the WebUntis API, with the fields that
    [PeriodElement.from] reads; [orgid] and [orgname] are optional. *)
Record element : Type := {
  raw_id : Z;
  raw_name : string;
  raw_longname : string;
  orgid : option Z;
  orgname : option string
}.

(** [PeriodElement] and its subclass [SubstitutedPeriodElement]. *)
Inductive t : Type :=
| PeriodElement (id : Z) (name longName : string)
| SubstitutedPeriodElement (id : Z) (name longName : string)
    (originalId : Z) (originalName : string).

Definition id (e : t) : Z :=
  match e with
  | PeriodElement i _ _ => i
  | SubstitutedPeriodElement i _ _ _ _ => i
  end.

Definition name (e : t) : string :=
  match e with
  | PeriodElement _ n _ => n
  | SubstitutedPeriodElement _ n _ _ _ => n
  end.

Definition longName (e : t) : string :=
  match e with
  | PeriodElement _ _ l => l
  | SubstitutedPeriodElement _ _ l _ _ => l
  end.

(** Truthiness of an optional number and of an optional string. *)
Definition truthyNumber (o : option Z) : bool :=
  match o with
  | Some z => negb (z =? 0)
  | None => false
  end.

Definition truthyString (o : option string) : bool :=
  match o with
  | Some s => negb (String.eqb s EmptyString)
  | None => false
  end.

(** [static from(element)]: [element.orgid && element.orgname ? ... : ...]. *)
Definition from (e : element) : t :=
  match orgid e, orgname e with
  | Some oi, Some on =>
      if truthyNumber (Some oi) && truthyString (Some on)
      then SubstitutedPeriodElement (raw_id e) (raw_name e) (raw_longname e) oi on
      else PeriodElement (raw_id e) (raw_name e) (raw_longname e)
  | _, _ => PeriodElement (raw_id e) (raw_name e) (raw_longname e)
  end.

(** [isSubstituted = () => this instanceof SubstitutedPeriodElement]. *)
Definition isSubstituted (e : t) : bool :=
  match e with
  | PeriodElement _ _ _ => false
  | SubstitutedPeriodElement _ _ _ _ _ => true
  end.

(** Presence of a field on the raw record. *)
Definition present {A} (o : option A) : bool :=
  match o with Some _ => true | None => false end.

End PeriodElement.

(** ** Periods (src/unnamed/part_000, lines 1-282) *)

Module Period.

Inductive lessonType : Type :=
| lesson | officeHour | standby | breakSupervision | exam.

Inductive lessonCode : Type :=
| regular | cancelled | irregular.

Inductive activityType : Type :=
| Unterricht | Bereitschaft.

Definition lessonCode_eqb (a b : lessonCode) : bool :=
  match a, b with
  | regular, regular | cancelled, cancelled | irregular, irregular => true
  | _, _ => false
  end.

(** The four element buckets, in the order of the declaration. *)
Record elementBuckets : Type := {
  classes : list PeriodElement.t;
  teachers : list PeriodElement.t;
  subjects : list PeriodElement.t;
  rooms : list PeriodElement.t
}.

Record t : Type := {
  id : Z;
  lessonType_ : lessonType;
  lessonCode_ : lessonCode;
  lessonNumber : Z;
  lessonText : string;
  substitutionText : option string;
  activityType_ : activityType;
  studentGroup : option string;
  elements : elementBuckets;
  date : string;
  startTime : string;
  endTime : string
}.

(** [(a, b) => a.id - b.id] *)
Definition compareIds (a b : PeriodElement.t) : Z :=
  PeriodElement.id a - PeriodElement.id b.

(** [for (let e of Object.values(elements)) e.sort(...)] *)
Definition sortBuckets (e : elementBuckets) : elementBuckets :=
  {| classes := sort compareIds (classes e);
     teachers := sort compareIds (teachers e);
     subjects := sort compareIds (subjects e);
     rooms := sort compareIds (rooms e) |}.

(** The constructor: three format tests that throw, then the sort. *)
Definition new (id : Z) (lt : lessonType) (lc : lessonCode)
    (lessonNumber : Z) (lessonText : string)
    (substitutionText : option string) (at_ : activityType)
    (studentGroup : option string) (elements : elementBuckets)
    (date startTime endTime : string) : completion t :=
  if negb (testDate date) then Throw (ValidationError date)
  else if negb (testTime startTime) then Throw (ValidationError startTime)
  else if negb (testTime endTime) then Throw (ValidationError endTime)
  else Return {| id := id; lessonType_ := lt; lessonCode_ := lc;
                 lessonNumber := lessonNumber; lessonText := lessonText;
                 substitutionText := substitutionText;
                 activityType_ := at_; studentGroup := studentGroup;
                 elements := sortBuckets elements;
                 date := date; startTime := startTime;
                 endTime := endTime |}.

Definition getDateAsString (p : t) : string := date p.
Definition getDateAsObject (p : t) : option Z := dateValue (date p).
Definition getStartTimeAsString (p : t) : string := startTime p.
Definition getEndTimeAsString (p : t) : string := endTime p.

(** [getStartDateTimeAsObject().valueOf()] *)
Definition getStartDateTimeValue (tz : timeZone) (p : t) : option Z :=
  dateTimeValue tz (date p) (startTime p).

(** [elements.map((e) => e.id).join()] *)
Definition joinedIds (l : list PeriodElement.t) : string :=
  join "," (map (fun e => numberToString (PeriodElement.id e)) l).

(** [hasTheSameElementsAs]: every bucket's joined ids are the same string. *)
Definition hasTheSameElementsAs (a b : t) : bool :=
  String.eqb (joinedIds (classes (elements a))) (joinedIds (classes (elements b)))
  && String.eqb (joinedIds (teachers (elements a))) (joinedIds (teachers (elements b)))
  && String.eqb (joinedIds (subjects (elements a))) (joinedIds (subjects (elements b)))
  && String.eqb (joinedIds (rooms (elements a))) (joinedIds (rooms (elements b))).

(** [Object.values(this.elements).flat()] *)
Definition allElements (p : t) : list PeriodElement.t :=
  classes (elements p) ++ teachers (elements p)
  ++ subjects (elements p) ++ rooms (elements p).

Definition deviatesFromSchedule (p : t) : bool :=
  PeriodElement.present (substitutionText p)
  || negb (lessonCode_eqb (lessonCode_ p) regular)
  || existsb PeriodElement.isSubstituted (allElements p).

Definition belongsToSameScheduleAs (tz : timeZone) (a b : t) : bool :=
  (lessonNumber a =? lessonNumber b)
  && numberStrictEq (getDay tz (date a)) (getDay tz (date b))
  && String.eqb (getStartTimeAsString a) (getStartTimeAsString b)
  && String.eqb (getEndTimeAsString a) (getEndTimeAsString b).

Definition canBeCombinedWith (a b : t) : bool :=
  (lessonNumber a =? lessonNumber b)
  && String.eqb (getDateAsString a) (getDateAsString b)
  && (String.eqb (getStartTimeAsString a) (getEndTimeAsString b)
      || String.eqb (getStartTimeAsString b) (getEndTimeAsString a))
  && lessonCode_eqb (lessonCode_ a) (lessonCode_ b)
  && hasTheSameElementsAs a b.

(** [(a, b) => a.getStartDateTimeAsObject().valueOf() - b. ... .valueOf()] *)
Definition compareStarts (tz : timeZone) (a b : t) : Z :=
  comparatorDifference (getStartDateTimeValue tz a)
                       (getStartDateTimeValue tz b).

(** [combineWith]: sort the pair by start instant, then construct a period
    from the receiver's fields, the earlier start and the later end. The
    constructor sorts the receiver's own buckets once more. *)
Definition combineWith (tz : timeZone) (this other : t) : completion t :=
  match sort (compareStarts tz) [this; other] with
  | earlier :: later :: _ =>
      new (id this) (lessonType_ this) (lessonCode_ this) (lessonNumber this)
          (lessonText this) (substitutionText this) (activityType_ this)
          (studentGroup this) (elements this) (getDateAsString this)
          (getStartTimeAsString earlier) (getEndTimeAsString later)
  | _ => Throw TypeError
  end.

(** The pair [earlier, later] that [combineWith] computes. *)
Definition earlierOf (tz : timeZone) (this other : t) : t :=
  hd this (sort (compareStarts tz) [this; other]).

Definition laterOf (tz : timeZone) (this other : t) : t :=
  hd other (tl (sort (compareStarts tz) [this; other])).

(** A period that a successful construction can have produced. *)
Definition wellFormed (p : t) : bool :=
  testDate (date p) && testTime (startTime p) && testTime (endTime p).

End Period.

(** ** The JSON-RPC transport's cookie store (src/unnamed/part_001) *)

Module RPCClient.

(** [private cookies: Record<string, string>]: the own properties of the
    object, in the order of their creation. *)
Definition cookieStore : Type := list (string * string).

(** Creation or update of an own property: an update keeps the place. *)
Fixpoint defineOwn (name value : string) (c : cookieStore) : cookieStore :=
  match c with
  | [] => [(name, value)]
  | (k, v) :: rest =>
      if String.eqb k name then (k, value) :: rest
      else (k, v) :: defineOwn name value rest
  end.

(** The name of the accessor that a plain object inherits. *)
Definition protoName : string := "__proto__".

(** [this.cookies[name] = value]: an own property is created or updated,
    except for the name [__proto__]: that assignment calls the inherited
    setter, which ignores a value that is a string, and creates nothing. *)
Definition assign (name value : string) (c : cookieStore) : cookieStore :=
  if String.eqb name protoName then c else defineOwn name value c.

(** The value of the own property [name], if there is one. *)
Fixpoint lookup (name : string) (c : cookieStore) : option string :=
  match c with
  | [] => None
  | (k, v) :: rest => if String.eqb k name then Some v else lookup name rest
  end.

(** The value of a string of decimal digits, after the digits [acc]. *)
Fixpoint digitsValue (s : string) (acc : Z) : option Z :=
  match s with
  | EmptyString => Some acc
  | String ch rest =>
      match digitValue ch with
      | Some d => digitsValue rest (10 * acc + d)
      | None => None
      end
  end.

(** The array index that a property name denotes, if it is one: a
    canonical decimal numeral (no leading zero) of at most [2^32 - 2]. *)
Definition arrayIndex (s : string) : option Z :=
  match s with
  | EmptyString => None
  | String ch rest =>
      if Ascii.eqb ch "0"%char
      then (match rest with EmptyString => Some 0 | _ => None end)
      else match digitsValue s 0 with
           | Some v => if v <=? 4294967294 then Some v else None
           | None => None
           end
  end.

Definition isArrayIndex (kv : string * string) : bool :=
  match arrayIndex (fst kv) with Some _ => true | None => false end.

Definition compareIndices (a b : string * string) : Z :=
  match arrayIndex (fst a), arrayIndex (fst b) with
  | Some i, Some j => i - j
  | _, _ => 0
  end.

(** [Object.entries(this.cookies)]: the properties whose names are array
    indices first, in ascending order of the index, then the others in the
    order of their creation. *)
Definition entries (c : cookieStore) : list (string * string) :=
  sort compareIndices (filter isArrayIndex c)
  ++ filter (fun kv => negb (isArrayIndex kv)) c.

(** [Object.entries(this.cookies).map(([key, value]) => key=value)] *)
Definition cookieEntries (c : cookieStore) : list string :=
  map (fun kv => fst kv ++ "=" ++ snd kv)%string (entries c).

(** The [Cookie] header of a request. *)
Definition cookieHeader (c : cookieStore) : string :=
  join ";" (cookieEntries c).

(** What the remote end answers: the status line, the decoded body's
    [result] and [error] members, and the cookies that [getSetCookies]
    reads from the headers. *)
Record response : Type := {
  status : Z;
  statusText : string;
  result : string;
  error : option (Z * string);
  setCookies : list (string * string)
}.

(** [for (let { name, value } of getSetCookies(...)) this.cookies[name] = value] *)
Definition capture (c : cookieStore) (cs : list (string * string)) : cookieStore :=
  fold_left (fun acc nv => assign (fst nv) (snd nv) acc) cs c.

(** One call of [request]: the header that is sent, the outcome and the
    store afterwards, for the answer [r] of the remote end. *)
Definition request (c : cookieStore) (r : response)
  : string * completion string * cookieStore :=
  let header := cookieHeader c in
  if negb (status r =? 200) then
    (header, Throw (HTTPStatusError 200 (statusText r)), c)
  else
    match error r with
    | Some (code, message) => (header, Throw (RPCError code message), c)
    | None => (header, Return (result r), capture c (setCookies r))
    end.

Definition storeAfter (c : cookieStore) (r : response) : cookieStore :=
  snd (request c r).

(** The store after a sequence of calls. *)
Definition storeAfterAll (c : cookieStore) (rs : list response) : cookieStore :=
  fold_left storeAfter rs c.

(** [new RPCClient(url)] *)
Definition new : cookieStore := [].

(** The response succeeds: status 200 and no error member. *)
Definition succeeds (r : response) : bool :=
  (status r =? 200) && negb (PeriodElement.present (error r)).

(** The value that a response's cookies leave for [name], if any. *)
Definition cookieSetBy (r : response) (name : string) : option string :=
  lookup name (capture [] (setCookies r)).

(** The last cookie of the name [n] among the cookies of a response. *)
Definition lastSet (n : string) (cs : list (string * string))
  : option (string * string) :=
  find (fun nv => String.eqb (fst nv) n) (rev cs).

End RPCClient.

(** ** Schedules and the reconstruction engine

    The classes [Schedule] and [ScheduleCollection] are not part of the
    sources at hand; only their tests are (src/src/requests/getClasses.ts,
    lines 9-312). *)

Module Schedule.

(** Modelled from the spec: the class [Schedule], which is missing: an
    ordered sequence of occurrences, partitioned into the unchanged and
    the changed ones. *)
Record t : Type := {
  lessons : list Period.t;
  unchanged : list Period.t;
  changed : list Period.t
}.

End Schedule.

Module ScheduleCollection.

Import Period.

(** The schedule slot key: lesson number, weekday, start time, end time. *)
Definition slotKey : Type := Z * option Z * string * string.

Definition optionZ_eqb (a b : option Z) : bool :=
  match a, b with
  | Some x, Some y => x =? y
  | None, None => true
  | _, _ => false
  end.

Definition slotKey_eqb (k1 k2 : slotKey) : bool :=
  let '(n1, w1, s1, e1) := k1 in
  let '(n2, w2, s2, e2) := k2 in
  (n1 =? n2) && optionZ_eqb w1 w2 && String.eqb s1 s2 && String.eqb e1 e2.

Section HostZone.

(** The time zone of the host, in which the weekdays and the start
    instants are taken. *)
Variable tz : timeZone.

Definition scheduleKey (p : Period.t) : slotKey :=
  (lessonNumber p, getDay tz (date p), startTime p, endTime p).

(** Modelled from the spec: the grouping of [fromLessons], which is
    missing, in the words "iterate the input in order; an occurrence joins
    the most recently opened schedule if it belongs to the same schedule
    as that schedule's first member, otherwise a new schedule is opened".
    The most recently opened schedule is the last one of [acc]. *)
Fixpoint joinLastOrOpen (acc : list (list Period.t)) (l : Period.t)
  : list (list Period.t) :=
  match acc with
  | [] => [[l]]
  | [g] =>
      match g with
      | first :: _ =>
          if belongsToSameScheduleAs tz l first then [g ++ [l]] else [g; [l]]
      | [] => [g; [l]]
      end
  | g :: acc' => g :: joinLastOrOpen acc' l
  end.

Definition groupSequential (ls : list Period.t) : list (list Period.t) :=
  fold_left joinLastOrOpen ls [].

(** Modelled from the spec: the grouping of [fromLessons], which is
    missing, in the words "a stable partition keyed by (lesson number,
    weekday, start time, end time), preserving first-seen order of keys
    and within-key order of occurrences", as "an explicit ordered mapping
    from schedule-key to accumulating list, iterated once". *)
Fixpoint addUnderKey (m : list (slotKey * list Period.t)) (k : slotKey)
    (l : Period.t) : list (slotKey * list Period.t) :=
  match m with
  | [] => [(k, [l])]
  | (k', g) :: rest =>
      if slotKey_eqb k' k then (k', g ++ [l]) :: rest
      else (k', g) :: addUnderKey rest k l
  end.

Definition partitionByKey (ls : list Period.t) : list (slotKey * list Period.t) :=
  fold_left (fun m l => addUnderKey m (scheduleKey l) l) ls [].

Definition groupByKey (ls : list Period.t) : list (list Period.t) :=
  map snd (partitionByKey ls).

(** Modelled from the spec: the classification of step A, which is
    missing: an occurrence is unchanged if its elements and code match the
    reference's and it does not itself deviate, otherwise changed; for the
    reference itself this is "unchanged unless it deviates". *)
Definition matchesReference (ref o : Period.t) : bool :=
  hasTheSameElementsAs o ref
  && lessonCode_eqb (lessonCode_ o) (lessonCode_ ref)
  && negb (deviatesFromSchedule o).

Definition classify (group : list Period.t) : Schedule.t :=
  match group with
  | [] => {| Schedule.lessons := []; Schedule.unchanged := [];
             Schedule.changed := [] |}
  | ref :: _ =>
      {| Schedule.lessons := group;
         Schedule.unchanged := filter (matchesReference ref) group;
         Schedule.changed :=
           filter (fun o => negb (matchesReference ref o)) group |}
  end.

(** Modelled from the spec: [ScheduleCollection.fromLessons], which is
    missing, with the grouping in the words of the spec's main sentence. *)
Definition fromLessons (ls : list Period.t) : list Schedule.t :=
  map classify (groupSequential ls).

(** Modelled from the spec: [ScheduleCollection.fromLessons], which is
    missing, with the grouping in the words of the spec's "equivalently". *)
Definition fromLessonsByKey (ls : list Period.t) : list Schedule.t :=
  map classify (groupByKey ls).

(** The occurrences of equal key are adjacent in the input: once a run of
    a key has ended, the key does not return. *)
Fixpoint dropRun (k : slotKey) (ls : list Period.t) : list Period.t :=
  match ls with
  | [] => []
  | l :: rest => if slotKey_eqb (scheduleKey l) k then dropRun k rest else ls
  end.

Definition hasKey (k : slotKey) (l : Period.t) : bool :=
  slotKey_eqb (scheduleKey l) k.

Fixpoint keysAdjacent (ls : list Period.t) : bool :=
  match ls with
  | [] => true
  | l :: rest =>
      negb (existsb (hasKey (scheduleKey l)) (dropRun (scheduleKey l) rest))
      && keysAdjacent rest
  end.

Definition sameDate (a b : Period.t) : bool :=
  String.eqb (getDateAsString a) (getDateAsString b).

(** The first occurrence of a list that satisfies [f], and the list
    without it. *)
Fixpoint extract (f : Period.t -> bool) (l : list Period.t)
  : option (Period.t * list Period.t) :=
  match l with
  | [] => None
  | x :: rest =>
      if f x then Some (x, rest)
      else match extract f rest with
           | Some (y, rest') => Some (y, x :: rest')
           | None => None
           end
  end.

(** An occurrence of the first schedule with its partner of the second, or
    an occurrence that has no partner. *)
Inductive pairing : Type :=
| Both (a b : Period.t)
| Alone (x : Period.t).

(** Modelled from the spec: the date pairings of two schedules in step B,
    which is missing: an occurrence of the first schedule is paired with
    the first occurrence of the second that has the same calendar date and
    is not yet paired; no occurrence is dropped, the occurrences without a
    partner stay on their own. *)
Fixpoint pairByDate (A B : list Period.t) : list pairing :=
  match A with
  | [] => map Alone B
  | a :: A' =>
      match extract (sameDate a) B with
      | Some (b, B') => Both a b :: pairByDate A' B'
      | None => Alone a :: pairByDate A' B
      end
  end.


Definition singlesOf (ps : list pairing) : list Period.t :=
  flat_map (fun p => match p with Both _ _ => [] | Alone x => [x] end) ps.


Definition unpaired (A B : list Period.t) : list Period.t :=
  singlesOf (pairByDate A B).

Inductive mergedOccurrence : Type :=
| Combined (p : Period.t)
| Retained (p : Period.t).

Definition occurrenceOf (m : mergedOccurrence) : Period.t :=
  match m with Combined p => p | Retained p => p end.

(** A pairing combines when [canBeCombinedWith] holds; the engine does not
    raise, a combination that cannot be made degrades to two retained
    occurrences. *)
Definition tryCombine (a b : Period.t) : option Period.t :=
  if canBeCombinedWith a b then
    match combineWith tz a b with
    | Return c => Some c
    | Throw _ => None
    end
  else None.

Definition mergePairing (ab : Period.t * Period.t) : list mergedOccurrence :=
  match tryCombine (fst ab) (snd ab) with
  | Some c => [Combined c]
  | None => [Retained (fst ab); Retained (snd ab)]
  end.

(** The merged occurrences of a pairing; an occurrence without a partner
    is retained as it is. *)
Definition mergeOne (p : pairing) : list mergedOccurrence :=
  match p with
  | Both a b => mergePairing (a, b)
  | Alone x => [Retained x]
  end.

Definition mergedOccurrences (A B : list Period.t) : list mergedOccurrence :=
  flat_map mergeOne (pairByDate A B).

(** The first merged occurrence, the reference of the merged schedule. *)
Fixpoint firstCombined (ms : list mergedOccurrence) : option Period.t :=
  match ms with
  | [] => None
  | Combined c :: _ => Some c
  | Retained _ :: rest => firstCombined rest
  end.

(** A retained occurrence is changed; a combined one is classified by the
    rule of step A against the reference. *)
Definition isChanged (ref : Period.t) (m : mergedOccurrence) : bool :=
  match m with
  | Retained _ => true
  | Combined c => negb (matchesReference ref c)
  end.

(** Modelled from the spec: the merge of two schedules in step B, which
    is missing: if at least one date pairing is combinable the schedules
    merge into one; the failing pairings are included without combining,
    both occurrences changed; [None] when no pairing combines. *)
Definition mergeSchedules (A B : Schedule.t) : option Schedule.t :=
  let ms := mergedOccurrences (Schedule.lessons A) (Schedule.lessons B) in
  match firstCombined ms with
  | None => None
  | Some ref =>
      Some {| Schedule.lessons := map occurrenceOf ms;
              Schedule.unchanged :=
                map occurrenceOf (filter (fun m => negb (isChanged ref m)) ms);
              Schedule.changed :=
                map occurrenceOf (filter (isChanged ref) ms) |}
  end.

(** Modelled from the spec: [combineSequentialSchedules], which is
    missing: scan the collection for adjacent pairs of schedules (by
    position) and replace an eligible pair by its merge. *)
Fixpoint combineSequentialSchedules (ss : list Schedule.t) : list Schedule.t :=
  match ss with
  | A :: ((B :: rest) as others) =>
      match mergeSchedules A B with
      | Some merged => merged :: combineSequentialSchedules rest
      | None => A :: combineSequentialSchedules others
      end
  | _ => ss
  end.

End HostZone.



End ScheduleCollection.

(** ** Statements of the specification and concrete inputs *)

Module Claims.

Import Period.

(** A period with the receiver's fields and other times. *)
Definition withTimes (p : Period.t) (s e : string) : Period.t :=
  {| id := id p; lessonType_ := lessonType_ p; lessonCode_ := lessonCode_ p;
     lessonNumber := lessonNumber p; lessonText := lessonText p;
     substitutionText := substitutionText p;
     activityType_ := activityType_ p; studentGroup := studentGroup p;
     elements := elements p; date := date p;
     startTime := s; endTime := e |}.

(** Ascending ids, the order of a bucket. *)
Definition idLe (a b : PeriodElement.t) : Prop :=
  PeriodElement.id a <= PeriodElement.id b.

Definition bucketsSorted (e : elementBuckets) : Prop :=
  StronglySorted idLe (classes e) /\ StronglySorted idLe (teachers e)
  /\ StronglySorted idLe (subjects e) /\ StronglySorted idLe (rooms e).

Definition bucketsPermuted (e e' : elementBuckets) : Prop :=
  Permutation (classes e) (classes e')
  /\ Permutation (teachers e) (teachers e')
  /\ Permutation (subjects e) (subjects e')
  /\ Permutation (rooms e) (rooms e').

(** The start time is strictly before the end time. *)
Definition startsBeforeEnd (p : Period.t) : bool :=
  match timeOfDay (startTime p), timeOfDay (endTime p) with
  | Some s, Some e => s <? e
  | _, _ => false
  end.

(** The zone without offset. *)
Definition utc : timeZone :=
  {| offsetAtUtc := fun _ => 0; offsetAtLocal := fun _ => 0 |}.

(** A zone one hour east of UTC that puts its clocks forward by one hour
    on 2022-03-27 at 01:00 UTC, from 02:00 to 03:00 local time, as central
    Europe did; the wall-clock values from 02:00 to 03:00 of that day are
    skipped and read by the offset before the change. *)
Definition centralEuropeSpring2022 : timeZone :=
  {| offsetAtUtc := fun t =>
       if t <? wallClock (daysFromCivil 2022 3 27) 60
       then 60 * msPerMinute else 120 * msPerMinute;
     offsetAtLocal := fun t =>
       if t <? wallClock (daysFromCivil 2022 3 27) 180
       then 60 * msPerMinute else 120 * msPerMinute |}.

(** A zone one hour west of UTC that puts its clocks forward to UTC on
    2022-03-27 at 01:00 UTC, as the Azores did. *)
Definition azoresSpring2022 : timeZone :=
  {| offsetAtUtc := fun t =>
       if t <? wallClock (daysFromCivil 2022 3 27) 60
       then - (60 * msPerMinute) else 0;
     offsetAtLocal := fun t =>
       if t <? wallClock (daysFromCivil 2022 3 27) 60
       then - (60 * msPerMinute) else 0 |}.

(** The lessons of the repository's tests, as periods: no elements,
    lesson number 1. *)
Definition noElements : elementBuckets :=
  {| classes := []; teachers := []; subjects := []; rooms := [] |}.

Definition testLesson (i : Z) (d s e : string) (c : lessonCode)
    (els : elementBuckets) : Period.t :=
  {| id := i; lessonType_ := lesson; lessonCode_ := c; lessonNumber := 1;
     lessonText := EmptyString; substitutionText := None;
     activityType_ := Unterricht; studentGroup := Some "1";
     elements := els; date := d; startTime := s; endTime := e |}.

Definition teacher (i : Z) (n : string) : elementBuckets :=
  {| classes := []; teachers := [PeriodElement.PeriodElement i n n];
     subjects := []; rooms := [] |}.

Definition WEEKLY_LESSONS : list Period.t :=
  [ testLesson 1 "2022-04-20" "12:00" "13:00" regular noElements;
    testLesson 2 "2022-04-27" "12:00" "13:00" regular noElements ].

Definition COMBINABLE_SCHEDULES : list Period.t :=
  [ testLesson 1 "2022-04-20" "12:00" "13:00" regular noElements;
    testLesson 2 "2022-04-20" "13:00" "14:00" regular noElements ].

Definition PARTIALLY_DIFFERENT_OCCURRENCE : list Period.t :=
  [ testLesson 1 "2022-04-20" "12:00" "13:00" regular noElements;
    testLesson 2 "2022-04-20" "13:00" "14:00" regular noElements;
    testLesson 3 "2022-04-27" "12:00" "13:00" regular noElements;
    testLesson 4 "2022-04-27" "13:00" "14:00" cancelled noElements ].

Definition PARTIALLY_DIFFERENT_OCCURRENCE_ELEMENTS : list Period.t :=
  [ testLesson 1 "2022-04-20" "12:00" "13:00" regular noElements;
    testLesson 2 "2022-04-20" "13:00" "14:00" regular noElements;
    testLesson 3 "2022-04-27" "12:00" "13:00" regular (teacher 1 "1");
    testLesson 4 "2022-04-27" "13:00" "14:00" regular (teacher 2 "2") ].

End Claims.

Module ClaimStatements.

Import Claims.

(** C7 as the specification words it: the substituted variant exactly
    when both original fields are present on the record. *)
Definition substituted_iff_both_present (e : PeriodElement.element) : Prop :=
  PeriodElement.isSubstituted (PeriodElement.from e) = true
  <-> (PeriodElement.present (PeriodElement.orgid e) = true
       /\ PeriodElement.present (PeriodElement.orgname e) = true).

(** A record that carries both original fields, the id being zero. *)
Definition elementWithZeroOrgid : PeriodElement.element :=
  {| PeriodElement.raw_id := 7;
     PeriodElement.raw_name := "Mu";
     PeriodElement.raw_longname := "Mueller";
     PeriodElement.orgid := Some 0;
     PeriodElement.orgname := Some "Sc" |}.

Definition elementSubstituted : PeriodElement.element :=
  {| PeriodElement.raw_id := 7;
     PeriodElement.raw_name := "Mu";
     PeriodElement.raw_longname := "Mueller";
     PeriodElement.orgid := Some 3;
     PeriodElement.orgname := Some "Sc" |}.

End ClaimStatements.

Module ConstructionStatements.

Import Period Claims.

(** C5 as the specification words it, for one call of the constructor:
    it throws exactly when the date or a time string is malformed, and a
    period that it returns starts strictly before it ends. *)
Definition throws_iff_malformed_and_ordered
    (i : Z) (lt : lessonType) (lc : lessonCode) (n : Z) (txt : string)
    (sub : option string) (act : activityType) (sg : option string)
    (els : elementBuckets) (d s e : string) : Prop :=
  (isReturn (new i lt lc n txt sub act sg els d s e) = false
   <-> (testDate d = false \/ testTime s = false \/ testTime e = false))
  /\ (forall p, new i lt lc n txt sub act sg els d s e = Return p ->
                startsBeforeEnd p = true).

(** Buckets given in descending order of the ids, with a repeated id. *)
Definition unsortedBuckets : elementBuckets :=
  {| classes := [PeriodElement.PeriodElement 9 "9b" "9b";
                 PeriodElement.PeriodElement 4 "5a" "5a"];
     teachers := [PeriodElement.PeriodElement 3 "Mu" "Mueller";
                  PeriodElement.SubstitutedPeriodElement 1 "Sc" "Schmidt" 3 "Mu";
                  PeriodElement.PeriodElement 3 "Mx" "Max"];
     subjects := [PeriodElement.PeriodElement 2 "M" "Mathematik"];
     rooms := [] |}.

End ConstructionStatements.

Module CombineStatements.

Import Period Claims.

(** An occurrence that the constructor can have returned. *)
Definition constructed (p : Period.t) : Prop :=
  wellFormed p = true /\ bucketsSorted (elements p).

(** C1 as the specification words it: the combination is the earlier
    occurrence with the later occurrence's end time. *)
Definition combination_is_earlier_with_later_end (tz : timeZone)
    (a b : Period.t) : Prop :=
  canBeCombinedWith a b = true ->
  combineWith tz a b =
    Return (withTimes (earlierOf tz a b)
                      (startTime (earlierOf tz a b))
                      (endTime (laterOf tz a b))).

(** The wall-clock value of the start of an occurrence. *)
Definition startWallClock (p : Period.t) : option Z :=
  match dateValue (date p), timeOfDay (startTime p) with
  | Some days, Some mins => Some (wallClock days mins)
  | _, _ => None
  end.

(** The host's zone has the same offset at the starts of the two
    occurrences: no clock change lies between them. *)
Definition sameOffsetAtStarts (tz : timeZone) (a b : Period.t) : Prop :=
  option_map (offsetAtLocal tz) (startWallClock a)
  = option_map (offsetAtLocal tz) (startWallClock b).

(** Two adjacent half hours around the clock change of 2022-03-27, the
    first of them in the hour that the change skips. *)
Definition halfHourInGap : Period.t :=
  testLesson 1 "2022-03-27" "02:30" "03:00" regular noElements.

Definition halfHourAfterGap : Period.t :=
  testLesson 2 "2022-03-27" "03:00" "03:30" regular noElements.

Definition firstHour : Period.t :=
  testLesson 1 "2022-04-20" "12:00" "13:00" regular noElements.

Definition secondHour : Period.t :=
  testLesson 2 "2022-04-20" "13:00" "14:00" regular noElements.

End CombineStatements.

Module TransportStatements.

Import RPCClient.

(** C9 as the specification words it: a cookie that the response [r] sets
    is an entry of the [Cookie] header of the request that follows [r]
    and the further responses [rs], whatever the status or the error
    member of [r]. *)
Definition cookies_replayed (c : cookieStore) (r : response)
    (rs : list response) : Prop :=
  forall name value,
    cookieSetBy r name = Some value ->
    In (name ++ "=" ++ value)%string
       (cookieEntries (storeAfterAll (storeAfter c r) rs)).

Definition sessionCookie : list (string * string) :=
  [("JSESSIONID"%string, "A1B2"%string)].

Definition okResponse : response :=
  {| status := 200; statusText := "OK"; result := "{}";
     error := None; setCookies := sessionCookie |}.

Definition unavailableResponse : response :=
  {| status := 503; statusText := "Service Unavailable";
     result := EmptyString; error := None; setCookies := sessionCookie |}.

Definition rpcErrorResponse : response :=
  {| status := 200; statusText := "OK"; result := EmptyString;
     error := Some (-8520, "not authenticated"%string);
     setCookies := sessionCookie |}.

(** A successful response with a cookie of the name [__proto__]. *)
Definition protoResponse : response :=
  {| status := 200; statusText := "OK"; result := "{}"; error := None;
     setCookies := [("__proto__"%string, "x"%string);
                    ("sid"%string, "1"%string)] |}.

(** A successful response with cookies whose names are array indices. *)
Definition indexResponse : response :=
  {| status := 200; statusText := "OK"; result := "{}"; error := None;
     setCookies := [("b"%string, "y"%string); ("10"%string, "z"%string);
                    ("2"%string, "x"%string); ("01"%string, "w"%string)] |}.

Definition plainResponse : response :=
  {| status := 200; statusText := "OK"; result := "[]";
     error := None; setCookies := [] |}.

End TransportStatements.

Module EngineStatements.

Import Period Claims ScheduleCollection.

(** The input is in chronological order of the start instants. *)
Fixpoint chronological (tz : timeZone) (ls : list Period.t) : bool :=
  match ls with
  | a :: ((b :: _) as rest) =>
      (compareStarts tz a b <=? 0) && chronological tz rest
  | _ => true
  end.

(** C6 as the specification words it: on a chronologically ordered input
    the two descriptions of the grouping give the same schedules. *)
Definition groupings_agree (tz : timeZone) (ls : list Period.t) : Prop :=
  chronological tz ls = true -> fromLessons tz ls = fromLessonsByKey tz ls.

(** All occurrences have the slot key (n, w, s, e). *)
Definition sharesSlot (tz : timeZone) (n w : Z) (s e : string)
    (l : Period.t) : Prop :=
  lessonNumber l = n /\ getDay tz (date l) = Some w
  /\ startTime l = s /\ endTime l = e.

End EngineStatements.

Module MergeStatements.

Import Period Claims CombineStatements ScheduleCollection.


(** Three weeks of a double period: a regular week, a week in which both
    hours are cancelled, and a week in which only the second hour is. *)
Definition THREE_WEEKS : list Period.t :=
  [ testLesson 1 "2022-04-20" "12:00" "13:00" regular noElements;
    testLesson 2 "2022-04-20" "13:00" "14:00" regular noElements;
    testLesson 3 "2022-04-27" "12:00" "13:00" cancelled noElements;
    testLesson 4 "2022-04-27" "13:00" "14:00" cancelled noElements;
    testLesson 5 "2022-05-04" "12:00" "13:00" regular noElements;
    testLesson 6 "2022-05-04" "13:00" "14:00" cancelled noElements ].

Definition firstHours : Schedule.t :=
  nth 0 (fromLessonsByKey utc THREE_WEEKS) (classify []).

Definition secondHours : Schedule.t :=
  nth 1 (fromLessonsByKey utc THREE_WEEKS) (classify []).



(** Three first hours and two second hours: the last first hour has no
    partner. *)
Definition threeFirstHours : Schedule.t :=
  classify
    [ testLesson 1 "2022-04-20" "12:00" "13:00" regular noElements;
      testLesson 3 "2022-04-27" "12:00" "13:00" regular noElements;
      testLesson 5 "2022-05-04" "12:00" "13:00" regular noElements ].

Definition twoSecondHours : Schedule.t :=
  classify
    [ testLesson 2 "2022-04-20" "13:00" "14:00" regular noElements;
      testLesson 4 "2022-04-27" "13:00" "14:00" regular noElements ].


End MergeStatements.

Module JoinStatements.

(** The string holds a comma. *)
Fixpoint hasComma (s : string) : bool :=
  match s with
  | EmptyString => false
  | String c rest => Ascii.eqb c ","%char || hasComma rest
  end.

(** The part of a string before its first comma. *)
Fixpoint beforeComma (s : string) : string :=
  match s with
  | EmptyString => EmptyString
  | String c rest =>
      if Ascii.eqb c ","%char then EmptyString else String c (beforeComma rest)
  end.

(** The part of a string after its first comma, if it has one. *)
Fixpoint afterComma (s : string) : option string :=
  match s with
  | EmptyString => None
  | String c rest => if Ascii.eqb c ","%char then Some rest else afterComma rest
  end.

(** A piece of a joined string: not empty and without a comma. *)
Definition isPiece (s : string) : Prop :=
  s <> EmptyString /\ hasComma s = false.

(** The ids of a bucket, in order. *)
Definition ids (l : list PeriodElement.t) : list Z := map PeriodElement.id l.

End JoinStatements.

(** ** [Period.from] (src/unnamed/part_000, lines 114-146) *)

Module PeriodFrom.

Import Period.

(** [value || null] for an optional string: the empty string is falsy. *)
Definition orNull (o : option string) : option string :=
  match o with
  | Some s => if String.eqb s EmptyString then None else Some s
  | None => None
  end.

(** [value === literal] for a string that may be undefined. *)
Definition isLiteral (o : option string) (literal : string) : bool :=
  match o with
  | Some s => String.eqb s literal
  | None => false
  end.

(** The raw [period] record of the WebUntis API, with the fields that
    [Period.from] reads. Its declaration (webuntis/resources) and the two
    formatters [formatUntisDate] and [formatUntisTime] (lib/timeformat) are
    missing: the native encodings of dates and times are the types
    [untisDate] and [untisTime], the formatters are parameters. *)
Record period (untisDate untisTime : Type) : Type := {
  raw_id : Z;
  lstype : option string;
  code : option string;
  lsnumber : Z;
  lstext : string;
  substText : option string;
  raw_activityType : activityType;
  sg : option string;
  kl : list PeriodElement.element;
  ro : list PeriodElement.element;
  su : list PeriodElement.element;
  te : list PeriodElement.element;
  raw_date : untisDate;
  raw_startTime : untisTime;
  raw_endTime : untisTime
}.

Arguments raw_id {untisDate untisTime} _.
Arguments lstype {untisDate untisTime} _.
Arguments code {untisDate untisTime} _.
Arguments lsnumber {untisDate untisTime} _.
Arguments lstext {untisDate untisTime} _.
Arguments substText {untisDate untisTime} _.
Arguments raw_activityType {untisDate untisTime} _.
Arguments sg {untisDate untisTime} _.
Arguments kl {untisDate untisTime} _.
Arguments ro {untisDate untisTime} _.
Arguments su {untisDate untisTime} _.
Arguments te {untisDate untisTime} _.
Arguments raw_date {untisDate untisTime} _.
Arguments raw_startTime {untisDate untisTime} _.
Arguments raw_endTime {untisDate untisTime} _.

(** The chain of conditionals on [period.lstype]. *)
Definition lessonTypeOf (o : option string) : lessonType :=
  if isLiteral o "bs" then breakSupervision
  else if isLiteral o "ex" then exam
  else if isLiteral o "oh" then officeHour
  else if isLiteral o "sb" then standby
  else lesson.

(** The chain of conditionals on [period.code]. *)
Definition lessonCodeOf (o : option string) : lessonCode :=
  if isLiteral o "cancelled" then cancelled
  else if isLiteral o "irregular" then irregular
  else regular.

(** [static from(period)] *)
Definition from {untisDate untisTime : Type}
    (formatUntisDate : untisDate -> string)
    (formatUntisTime : untisTime -> string)
    (p : period untisDate untisTime) : completion Period.t :=
  new (raw_id p)
      (lessonTypeOf (lstype p))
      (lessonCodeOf (code p))
      (lsnumber p)
      (lstext p)
      (orNull (substText p))
      (raw_activityType p)
      (orNull (sg p))
      {| classes := map PeriodElement.from (kl p);
         rooms := map PeriodElement.from (ro p);
         subjects := map PeriodElement.from (su p);
         teachers := map PeriodElement.from (te p) |}
      (formatUntisDate (raw_date p))
      (formatUntisTime (raw_startTime p))
      (formatUntisTime (raw_endTime p)).

(** A raw element is a substitution: both original fields are truthy. *)
Definition rawSubstituted (e : PeriodElement.element) : bool :=
  PeriodElement.truthyNumber (PeriodElement.orgid e)
  && PeriodElement.truthyString (PeriodElement.orgname e).

(** A raw period of two teachers, the second a substitute, on 2022-04-20;
    dates and times in the encoding [20220420] and [1200]. *)
Definition sampleFormatDate (d : Z) : string :=
  if d =? 20220420 then "2022-04-20" else "invalid".

Definition sampleFormatTime (t : Z) : string :=
  if t =? 1200 then "12:00" else if t =? 1300 then "13:00" else "invalid".

Definition sampleTeacher (i : Z) (n : string) (oi : option Z)
    (on : option string) : PeriodElement.element :=
  {| PeriodElement.raw_id := i; PeriodElement.raw_name := n;
     PeriodElement.raw_longname := n;
     PeriodElement.orgid := oi; PeriodElement.orgname := on |}.

Definition samplePeriod : period Z Z :=
  {| raw_id := 11; lstype := None; code := None; lsnumber := 4;
     lstext := EmptyString; substText := Some EmptyString;
     raw_activityType := Unterricht; sg := None;
     kl := []; ro := []; su := [];
     te := [sampleTeacher 9 "Mu" None None;
            sampleTeacher 5 "Sc" (Some 9) (Some "Mu"%string)];
     raw_date := 20220420; raw_startTime := 1200; raw_endTime := 1300 |}.

End PeriodFrom.

(** ** Further inputs *)

Module FurtherInputs.

Import Period Claims CombineStatements.

(** An occurrence of no duration, at the start of [firstHour]. *)
Definition instantAtNoon : Period.t :=
  testLesson 3 "2022-04-20" "12:00" "12:00" regular noElements.

Definition thirdHour : Period.t :=
  testLesson 3 "2022-04-20" "14:00" "15:00" regular noElements.

Definition wednesdayBeforeChange : Period.t :=
  testLesson 5 "2022-03-23" "12:00" "13:00" regular noElements.

Definition wednesdayAfterChange : Period.t :=
  testLesson 6 "2022-03-30" "12:00" "13:00" regular noElements.

Definition nextWeek : Period.t :=
  testLesson 4 "2022-04-27" "12:00" "13:00" regular noElements.

(** The buckets of [unsortedBuckets], the teachers in another order. *)
Definition unsortedBucketsAgain : elementBuckets :=
  {| classes := [PeriodElement.PeriodElement 4 "5a" "5a";
                 PeriodElement.PeriodElement 9 "9b" "9b"];
     teachers := [PeriodElement.SubstitutedPeriodElement 1 "Sc" "Schmidt" 3 "Mu";
                  PeriodElement.PeriodElement 3 "Mx" "Max";
                  PeriodElement.PeriodElement 3 "Mu" "Mueller"];
     subjects := [PeriodElement.PeriodElement 2 "M" "Mathematik"];
     rooms := [] |}.

(** The minutes from the start time to the end time. *)
Definition duration (p : Period.t) : Z :=
  match timeOfDay (startTime p), timeOfDay (endTime p) with
  | Some s, Some e => e - s
  | _, _ => 0
  end.

(** The elements of the id [k] in a bucket, in the bucket's order. *)
Definition withId (k : Z) (l : list PeriodElement.t) : list PeriodElement.t :=
  filter (fun e => PeriodElement.id e =? k) l.

Definition idsPermuted (e e' : elementBuckets) : Prop :=
  Permutation (JoinStatements.ids (classes e)) (JoinStatements.ids (classes e'))
  /\ Permutation (JoinStatements.ids (teachers e)) (JoinStatements.ids (teachers e'))
  /\ Permutation (JoinStatements.ids (subjects e)) (JoinStatements.ids (subjects e'))
  /\ Permutation (JoinStatements.ids (rooms e)) (JoinStatements.ids (rooms e')).

End FurtherInputs.

Module FurtherTransport.

Import RPCClient.

(** The names of the stored cookies, in the order of the header. *)
Definition names (c : cookieStore) : list string := map fst (entries c).

(** The invariant of the store: no name twice, and not [__proto__]. *)
Definition goodNames (l : list string) : Prop :=
  NoDup l /\ ~ In protoName l.

Definition twoSessionCookies : response :=
  {| status := 200; statusText := "OK"; result := "{}"; error := None;
     setCookies := [("JSESSIONID"%string, "A1B2"%string);
                    ("schoolname"%string, "_c2Nob29s"%string);
                    ("JSESSIONID"%string, "C3D4"%string)] |}.

End FurtherTransport.

(** * Properties *)

Import Claims.

(** ** The calendar model on known dates *)

Example getDay_2022_04_20 : getDay utc "2022-04-20" = Some 3.
Proof. reflexivity. Qed.

Example getDay_epoch : getDay utc "1970-01-01" = Some 4.
Proof. reflexivity. Qed.

(** West of UTC the local weekday of midnight UTC is that of the day
    before; after the clocks have gone forward to UTC it is the date's. *)
Example getDay_west_of_utc :
  getDay azoresSpring2022 "2022-03-23" = Some 2
  /\ getDay azoresSpring2022 "2022-03-30" = Some 3.
Proof. split; reflexivity. Qed.

(** A wall-clock time that the clock change skips is the instant one hour
    later on the clock: 02:30 and 03:30 are one instant, after 03:00. *)
Example dateTimeValue_in_the_gap :
  dateTimeValue centralEuropeSpring2022 "2022-03-27" "02:30"
  = dateTimeValue centralEuropeSpring2022 "2022-03-27" "03:30"
  /\ dateTimeValue centralEuropeSpring2022 "2022-03-27" "03:00"
     = Some (wallClock (daysFromCivil 2022 3 27) 60)
  /\ dateTimeValue centralEuropeSpring2022 "2022-03-27" "02:30"
     = Some (wallClock (daysFromCivil 2022 3 27) 90).
Proof. repeat split. Qed.

Example numberToString_examples :
  map numberToString [0; 7; 42; -5] = ["0"; "7"; "42"; "-5"]%string.
Proof. reflexivity. Qed.

(** ** The repository's tests, replayed on the model *)

Example test_weekly_lessons :
  exists s, ScheduleCollection.fromLessonsByKey utc WEEKLY_LESSONS = [s]
            /\ List.length (Schedule.unchanged s) = 2%nat.
Proof. eexists; split; reflexivity. Qed.

Example test_weekly_lessons_sequential :
  exists s, ScheduleCollection.fromLessons utc WEEKLY_LESSONS = [s]
            /\ List.length (Schedule.unchanged s) = 2%nat.
Proof. eexists; split; reflexivity. Qed.

Example test_combinable_schedules :
  List.length (ScheduleCollection.combineSequentialSchedules utc
            (ScheduleCollection.fromLessonsByKey utc COMBINABLE_SCHEDULES)) = 1%nat.
Proof. reflexivity. Qed.

Example test_partially_different :
  exists s,
    ScheduleCollection.combineSequentialSchedules utc
      (ScheduleCollection.fromLessonsByKey utc PARTIALLY_DIFFERENT_OCCURRENCE) = [s]
    /\ List.length (Schedule.changed s) = 2%nat.
Proof. eexists; split; reflexivity. Qed.

Example test_partially_different_elements :
  exists s,
    ScheduleCollection.combineSequentialSchedules utc
      (ScheduleCollection.fromLessonsByKey utc
         PARTIALLY_DIFFERENT_OCCURRENCE_ELEMENTS) = [s]
    /\ List.length (Schedule.changed s) = 2%nat.
Proof. eexists; split; reflexivity. Qed.

(** With the grouping by the most recently opened schedule the third test
    of the repository does not pass: the keys alternate in its input. *)
Example test_partially_different_sequential :
  List.length (ScheduleCollection.combineSequentialSchedules utc
            (ScheduleCollection.fromLessons utc PARTIALLY_DIFFERENT_OCCURRENCE))
  = 3%nat.
Proof. reflexivity. Qed.

Import ClaimStatements.

(** ** Elements *)

Section ElementFacts.

Import PeriodElement.

Lemma from_substituted_iff (e : element) :
  isSubstituted (from e) = true
  <-> truthyNumber (orgid e) && truthyString (orgname e) = true.
Proof.
  unfold from.
  destruct (orgid e) as [oi|], (orgname e) as [on|]; simpl;
    try (split; [discriminate | intros H; try discriminate;
                 apply andb_true_iff in H; destruct H; discriminate]).
  destruct (negb (oi =? 0) && negb (String.eqb on EmptyString)); simpl;
    split; auto; discriminate.
Qed.

Lemma from_plain_when_absent (e : element) :
  orgid e = None \/ orgname e = None ->
  from e = PeriodElement (raw_id e) (raw_name e) (raw_longname e).
Proof.
  unfold from. intros [H | H]; rewrite H; [reflexivity|].
  destruct (orgid e); reflexivity.
Qed.

End ElementFacts.

(** C7 (counterexample): a record with both original fields present, the
    original id being 0, gives a plain element, so "substituted iff both
    fields are present" does not hold for it. *)
Lemma C7_zero_orgid_gives_plain_element :
  ~ substituted_iff_both_present elementWithZeroOrgid.
Proof.
  unfold substituted_iff_both_present. intros [_ H].
  specialize (H (conj eq_refl eq_refl)). discriminate H.
Qed.

(** C7 (amended): [PeriodElement.from] produces the substituted variant if
    and only if both original fields are present and truthy, that is the
    original id is a non-zero number and the original name a non-empty
    string; then it carries them over unchanged. Absence of either field
    yields a plain element with the record's id and names, and
    [isSubstituted] is true for the substituted variant only. *)
Theorem C7_from_substituted_iff_present_and_truthy :
  forall e : PeriodElement.element,
    (PeriodElement.isSubstituted (PeriodElement.from e) = true
     <-> exists oi on,
           PeriodElement.orgid e = Some oi /\ PeriodElement.orgname e = Some on
           /\ oi <> 0 /\ on <> EmptyString)
    /\ (forall oi on,
           PeriodElement.orgid e = Some oi -> PeriodElement.orgname e = Some on ->
           oi <> 0 -> on <> EmptyString ->
           PeriodElement.from e =
             PeriodElement.SubstitutedPeriodElement
               (PeriodElement.raw_id e) (PeriodElement.raw_name e)
               (PeriodElement.raw_longname e) oi on)
    /\ (PeriodElement.orgid e = None \/ PeriodElement.orgname e = None ->
        PeriodElement.from e =
          PeriodElement.PeriodElement
            (PeriodElement.raw_id e) (PeriodElement.raw_name e)
            (PeriodElement.raw_longname e))
    /\ (forall x,
           PeriodElement.isSubstituted x = true
           <-> exists i n l oi on,
                 x = PeriodElement.SubstitutedPeriodElement i n l oi on).
Proof.
  intros e. repeat split.
  - intros H. apply from_substituted_iff in H.
    apply andb_true_iff in H. destruct H as [H1 H2].
    destruct (PeriodElement.orgid e) as [oi|]; [|discriminate].
    destruct (PeriodElement.orgname e) as [on|]; [|discriminate].
    exists oi, on. simpl in H1, H2.
    apply negb_true_iff in H1, H2.
    apply Z.eqb_neq in H1. apply String.eqb_neq in H2. auto.
  - intros (oi & on & Hi & Hn & Hz & He).
    apply from_substituted_iff. rewrite Hi, Hn. simpl.
    apply Z.eqb_neq in Hz. apply String.eqb_neq in He.
    rewrite Hz, He. reflexivity.
  - intros oi on Hi Hn Hz He. unfold PeriodElement.from.
    rewrite Hi, Hn. simpl.
    apply Z.eqb_neq in Hz. apply String.eqb_neq in He.
    rewrite Hz, He. reflexivity.
  - apply from_plain_when_absent.
  - destruct x; simpl; [discriminate|]. intros _.
    repeat eexists.
  - intros (i & n & l & oi & on & ->). reflexivity.
Qed.

(** C7 (amended), at a record with a non-zero original id and a non-empty
    original name. *)
Lemma C7_from_substituted_witness :
  PeriodElement.from elementSubstituted =
    PeriodElement.SubstitutedPeriodElement 7 "Mu" "Mueller" 3 "Sc".
Proof.
  apply (proj1 (proj2 (C7_from_substituted_iff_present_and_truthy
                         elementSubstituted)) 3 "Sc"%string);
    try reflexivity; discriminate.
Defined.

(** ** Comparison predicates of periods *)

Section PeriodPredicates.

Import Period.

Lemma lessonCode_eqb_eq (a b : lessonCode) :
  lessonCode_eqb a b = true <-> a = b.
Proof. destruct a, b; simpl; split; congruence. Qed.

Lemma lessonCode_eqb_sym (a b : lessonCode) :
  lessonCode_eqb a b = lessonCode_eqb b a.
Proof. destruct a, b; reflexivity. Qed.

Lemma lessonCode_eqb_refl (a : lessonCode) : lessonCode_eqb a a = true.
Proof. destruct a; reflexivity. Qed.

Lemma hasTheSameElementsAs_sym (a b : t) :
  hasTheSameElementsAs a b = hasTheSameElementsAs b a.
Proof.
  unfold hasTheSameElementsAs.
  rewrite (String.eqb_sym (joinedIds (classes (elements a)))).
  rewrite (String.eqb_sym (joinedIds (teachers (elements a)))).
  rewrite (String.eqb_sym (joinedIds (subjects (elements a)))).
  rewrite (String.eqb_sym (joinedIds (rooms (elements a)))).
  reflexivity.
Qed.

Lemma hasTheSameElementsAs_refl (a : t) : hasTheSameElementsAs a a = true.
Proof.
  unfold hasTheSameElementsAs. rewrite !String.eqb_refl. reflexivity.
Qed.

Lemma canBeCombinedWith_sym (a b : t) :
  canBeCombinedWith a b = canBeCombinedWith b a.
Proof.
  unfold canBeCombinedWith.
  rewrite (Z.eqb_sym (lessonNumber a)).
  rewrite (String.eqb_sym (getDateAsString a)).
  rewrite (lessonCode_eqb_sym (lessonCode_ a)).
  rewrite (hasTheSameElementsAs_sym a).
  rewrite (orb_comm (String.eqb (getStartTimeAsString a) _)).
  reflexivity.
Qed.

Lemma canBeCombinedWith_same_date (a b : t) :
  canBeCombinedWith a b = true -> date a = date b.
Proof.
  unfold canBeCombinedWith, getDateAsString. intros H.
  repeat (apply andb_true_iff in H; destruct H as [H ?]).
  apply String.eqb_eq. assumption.
Qed.

End PeriodPredicates.

(** C4: [a.canBeCombinedWith(b)] is true if and only if the lesson numbers
    are equal, the date strings are equal, one occurrence's start time
    string equals the other's end time string (in either order), the lesson
    codes are equal and [hasTheSameElementsAs] holds; and the predicate is
    symmetric. *)
Theorem C4_canBeCombinedWith_iff_and_symmetric :
  forall a b : Period.t,
    (Period.canBeCombinedWith a b = true
     <-> (Period.lessonNumber a = Period.lessonNumber b
          /\ Period.getDateAsString a = Period.getDateAsString b
          /\ (Period.getStartTimeAsString a = Period.getEndTimeAsString b
              \/ Period.getStartTimeAsString b = Period.getEndTimeAsString a)
          /\ Period.lessonCode_ a = Period.lessonCode_ b
          /\ Period.hasTheSameElementsAs a b = true))
    /\ (Period.canBeCombinedWith a b = true
        <-> Period.canBeCombinedWith b a = true).
Proof.
  intros a b. split.
  - unfold Period.canBeCombinedWith.
    rewrite !andb_true_iff, orb_true_iff, Z.eqb_eq, !String.eqb_eq,
      lessonCode_eqb_eq.
    tauto.
  - rewrite (canBeCombinedWith_sym a b). tauto.
Qed.

Import JoinStatements.

(** ** [hasTheSameElementsAs] compares the sequences of ids

    The joined strings of two buckets are equal exactly when the buckets
    have the same ids in the same order: the decimal form of a number is
    not empty and has no comma, and it determines the number. *)

Section JoinedIdsFacts.

Lemma uint_string_no_comma (d : Decimal.uint) :
  hasComma (NilEmpty.string_of_uint d) = false.
Proof. induction d; simpl; auto. Qed.

Lemma numberToString_piece (z : Z) : isPiece (numberToString z).
Proof.
  unfold isPiece, numberToString, NilZero.string_of_int, NilZero.string_of_uint.
  destruct (Z.to_int z) as [d | d]; destruct d; simpl;
    (split; [discriminate | try reflexivity; apply uint_string_no_comma]).
Qed.

Lemma to_int_not_nil (z : Z) :
  Z.to_int z <> Decimal.Pos Decimal.Nil /\ Z.to_int z <> Decimal.Neg Decimal.Nil.
Proof.
  destruct z as [|p|p]; simpl; split; try discriminate;
    intros H; inversion H as [Hp];
    apply (DecimalPos.Unsigned.to_uint_nonnil p Hp).
Qed.

Lemma numberToString_inj (a b : Z) :
  numberToString a = numberToString b -> a = b.
Proof.
  unfold numberToString. intros H.
  apply DecimalZ.to_int_inj.
  destruct (to_int_not_nil a) as [Ha1 Ha2].
  destruct (to_int_not_nil b) as [Hb1 Hb2].
  pose proof (NilZero.isi _ Ha1 Ha2) as Ia.
  pose proof (NilZero.isi _ Hb1 Hb2) as Ib.
  rewrite H in Ia. rewrite Ia in Ib. inversion Ib. reflexivity.
Qed.

Lemma beforeComma_piece (s rest : string) :
  hasComma s = false -> beforeComma (s ++ String ","%char rest) = s.
Proof.
  induction s as [|c s IH]; simpl; [reflexivity|].
  intros H. apply orb_false_iff in H. destruct H as [Hc Hs].
  rewrite Hc, IH by assumption. reflexivity.
Qed.

Lemma beforeComma_whole (s : string) : hasComma s = false -> beforeComma s = s.
Proof.
  induction s as [|c s IH]; simpl; [reflexivity|].
  intros H. apply orb_false_iff in H. destruct H as [Hc Hs].
  rewrite Hc, IH by assumption. reflexivity.
Qed.

Lemma afterComma_piece (s rest : string) :
  hasComma s = false -> afterComma (s ++ String ","%char rest) = Some rest.
Proof.
  induction s as [|c s IH]; simpl; [reflexivity|].
  intros H. apply orb_false_iff in H. destruct H as [Hc Hs].
  rewrite Hc. apply IH. assumption.
Qed.

Lemma afterComma_whole (s : string) : hasComma s = false -> afterComma s = None.
Proof.
  induction s as [|c s IH]; simpl; [reflexivity|].
  intros H. apply orb_false_iff in H. destruct H as [Hc Hs].
  rewrite Hc. apply IH. assumption.
Qed.

Lemma join_cons (x y : string) (rest : list string) :
  join "," (x :: y :: rest) = (x ++ String ","%char (join "," (y :: rest)))%string.
Proof. reflexivity. Qed.

Lemma join_head (x : string) (xs : list string) :
  isPiece x -> beforeComma (join "," (x :: xs)) = x.
Proof.
  intros [_ Hx]. destruct xs as [|y rest].
  - apply beforeComma_whole. assumption.
  - rewrite join_cons. apply beforeComma_piece. assumption.
Qed.

Lemma join_tail (x : string) (xs : list string) :
  isPiece x ->
  afterComma (join "," (x :: xs))
  = match xs with [] => None | _ :: _ => Some (join "," xs) end.
Proof.
  intros [_ Hx]. destruct xs as [|y rest].
  - apply afterComma_whole. assumption.
  - rewrite join_cons. apply afterComma_piece. assumption.
Qed.

Lemma join_nonempty (x : string) (xs : list string) :
  isPiece x -> join "," (x :: xs) <> EmptyString.
Proof.
  intros [Hx _]. destruct xs as [|y rest]; [exact Hx|].
  rewrite join_cons. destruct x; [congruence | discriminate].
Qed.

Lemma join_pieces_inj (xs : list string) :
  forall ys,
    Forall isPiece xs -> Forall isPiece ys ->
    join "," xs = join "," ys -> xs = ys.
Proof.
  induction xs as [|x xs IH]; intros ys Hxs Hys Heq.
  - destruct ys as [|y ys]; [reflexivity|].
    inversion Hys; subst. symmetry in Heq.
    exfalso. eapply join_nonempty; eassumption.
  - destruct ys as [|y ys].
    + inversion Hxs; subst. exfalso. eapply join_nonempty; eassumption.
    + inversion Hxs as [|? ? Hx Hxs']; subst.
      inversion Hys as [|? ? Hy Hys']; subst.
      pose proof (f_equal beforeComma Heq) as Hb.
      rewrite !join_head in Hb by assumption. subst y.
      pose proof (f_equal afterComma Heq) as Ha.
      rewrite !join_tail in Ha by assumption.
      f_equal.
      destruct xs as [|x' xs], ys as [|y' ys]; try discriminate Ha;
        [reflexivity|].
      inversion Ha. apply IH; assumption.
Qed.

Lemma joinedIds_eq (l1 l2 : list PeriodElement.t) :
  String.eqb (Period.joinedIds l1) (Period.joinedIds l2) = true
  <-> ids l1 = ids l2.
Proof.
  rewrite String.eqb_eq. unfold Period.joinedIds, ids. split.
  - intros H. apply join_pieces_inj in H.
    + rewrite <- !(map_map PeriodElement.id numberToString) in H.
      revert H. generalize (map PeriodElement.id l1) (map PeriodElement.id l2).
      intros a. induction a as [|x a IH]; intros [|y b] H;
        try discriminate H; [reflexivity|].
      simpl in H. inversion H as [[Hxy Hab]].
      apply numberToString_inj in Hxy. subst. f_equal. apply IH, Hab.
    + apply Forall_map, Forall_forall. intros; apply numberToString_piece.
    + apply Forall_map, Forall_forall. intros; apply numberToString_piece.
  - intros H.
    rewrite <- !(map_map PeriodElement.id numberToString), H. reflexivity.
Qed.

(** [hasTheSameElementsAs] holds exactly when, bucket by bucket, the two
    occurrences have the same sequence of element ids. *)
Lemma hasTheSameElementsAs_ids (a b : Period.t) :
  Period.hasTheSameElementsAs a b = true
  <-> (ids (Period.classes (Period.elements a))
         = ids (Period.classes (Period.elements b))
       /\ ids (Period.teachers (Period.elements a))
          = ids (Period.teachers (Period.elements b))
       /\ ids (Period.subjects (Period.elements a))
          = ids (Period.subjects (Period.elements b))
       /\ ids (Period.rooms (Period.elements a))
          = ids (Period.rooms (Period.elements b))).
Proof.
  unfold Period.hasTheSameElementsAs.
  rewrite !andb_true_iff, !joinedIds_eq. tauto.
Qed.

End JoinedIdsFacts.

Import ConstructionStatements.

(** ** The sort of the constructor *)

Section SortFacts.

Context {A : Type}.
Variable cmp : A -> A -> Z.

Lemma insertSorted_perm (x : A) (l : list A) :
  Permutation (x :: l) (insertSorted cmp x l).
Proof.
  induction l as [|y ys IH]; simpl.
  - apply Permutation_refl.
  - destruct (cmp x y <=? 0).
    + apply Permutation_refl.
    + eapply perm_trans; [apply perm_swap|]. apply perm_skip, IH.
Qed.

Lemma sort_perm (l : list A) : Permutation l (sort cmp l).
Proof.
  induction l as [|x xs IH]; simpl.
  - apply perm_nil.
  - eapply perm_trans; [apply perm_skip, IH|]. apply insertSorted_perm.
Qed.

Lemma sort_pair (a b : A) :
  sort cmp [a; b] = if cmp a b <=? 0 then [a; b] else [b; a].
Proof. reflexivity. Qed.

End SortFacts.

Section SortById.

Import Period.

Lemma compareIds_le (x y : PeriodElement.t) :
  (compareIds x y <=? 0) = true <-> idLe x y.
Proof. unfold compareIds, idLe. rewrite Z.leb_le. lia. Qed.

Lemma insertSorted_ids_sorted (x : PeriodElement.t) (l : list PeriodElement.t) :
  StronglySorted idLe l -> StronglySorted idLe (insertSorted compareIds x l).
Proof.
  induction 1 as [|y ys Hs IH Hall]; simpl.
  - repeat constructor.
  - destruct (compareIds x y <=? 0) eqn:E.
    + apply compareIds_le in E.
      constructor; [constructor; assumption|].
      constructor; [assumption|].
      eapply Forall_impl; [|exact Hall].
      intros z Hz. unfold idLe in *. lia.
    + constructor; [assumption|].
      assert (Hyx : idLe y x).
      { unfold idLe. apply Z.leb_gt in E. unfold compareIds in E. lia. }
      eapply Permutation_Forall; [apply insertSorted_perm|].
      constructor; assumption.
Qed.

Lemma sort_ids_sorted (l : list PeriodElement.t) :
  StronglySorted idLe (sort compareIds l).
Proof.
  induction l as [|x xs IH]; simpl.
  - constructor.
  - apply insertSorted_ids_sorted, IH.
Qed.

(** Sorting a bucket that is in order leaves it as it is. *)
Lemma sort_ids_fixpoint (l : list PeriodElement.t) :
  StronglySorted idLe l -> sort compareIds l = l.
Proof.
  induction 1 as [|x xs Hs IH Hall]; simpl.
  - reflexivity.
  - rewrite IH. destruct xs as [|y ys]; simpl; [reflexivity|].
    inversion Hall as [|? ? Hxy _]; subst.
    apply compareIds_le in Hxy. rewrite Hxy. reflexivity.
Qed.

(** The sort is stable: the elements of one id keep their order. *)
Lemma insertSorted_ids_stable (k : Z) (x : PeriodElement.t)
    (l : list PeriodElement.t) :
  filter (fun e => PeriodElement.id e =? k) (insertSorted compareIds x l)
  = filter (fun e => PeriodElement.id e =? k) (x :: l).
Proof.
  induction l as [|y ys IH]; [reflexivity|].
  cbn [insertSorted]. destruct (compareIds x y <=? 0) eqn:E; [reflexivity|].
  apply Z.leb_gt in E. unfold compareIds in E.
  cbn [filter] in *. rewrite IH.
  destruct (PeriodElement.id x =? k) eqn:Ex,
           (PeriodElement.id y =? k) eqn:Ey; try reflexivity.
  apply Z.eqb_eq in Ex, Ey. lia.
Qed.

Lemma sort_ids_stable (k : Z) (l : list PeriodElement.t) :
  filter (fun e => PeriodElement.id e =? k) (sort compareIds l)
  = filter (fun e => PeriodElement.id e =? k) l.
Proof.
  induction l as [|x xs IH]; [reflexivity|].
  cbn [sort]. rewrite insertSorted_ids_stable. cbn [filter].
  rewrite IH. reflexivity.
Qed.

Lemma sortBuckets_sorted (e : elementBuckets) : bucketsSorted (sortBuckets e).
Proof. repeat split; simpl; apply sort_ids_sorted. Qed.

Lemma sortBuckets_perm (e : elementBuckets) : bucketsPermuted e (sortBuckets e).
Proof. repeat split; simpl; apply sort_perm. Qed.

Lemma sortBuckets_fixpoint (e : elementBuckets) :
  bucketsSorted e -> sortBuckets e = e.
Proof.
  intros (Hc & Ht & Hs & Hr). destruct e as [c t s r]. simpl in *.
  unfold sortBuckets. simpl.
  rewrite !sort_ids_fixpoint by assumption. reflexivity.
Qed.

(** What a returning construction returns. *)
Lemma new_returns
    (i : Z) (lt : lessonType) (lc : lessonCode) (n : Z) (txt : string)
    (sub : option string) (act : activityType) (sg : option string)
    (els : elementBuckets) (d s e : string) (p : t) :
  new i lt lc n txt sub act sg els d s e = Return p ->
  testDate d = true /\ testTime s = true /\ testTime e = true
  /\ p = {| id := i; lessonType_ := lt; lessonCode_ := lc;
            lessonNumber := n; lessonText := txt; substitutionText := sub;
            activityType_ := act; studentGroup := sg;
            elements := sortBuckets els;
            date := d; startTime := s; endTime := e |}.
Proof.
  unfold new.
  destruct (testDate d), (testTime s), (testTime e); simpl;
    intros H; try discriminate.
  inversion H. auto.
Qed.

Lemma new_total
    (i : Z) (lt : lessonType) (lc : lessonCode) (n : Z) (txt : string)
    (sub : option string) (act : activityType) (sg : option string)
    (els : elementBuckets) (d s e : string) :
  testDate d = true -> testTime s = true -> testTime e = true ->
  new i lt lc n txt sub act sg els d s e =
    Return {| id := i; lessonType_ := lt; lessonCode_ := lc;
              lessonNumber := n; lessonText := txt; substitutionText := sub;
              activityType_ := act; studentGroup := sg;
              elements := sortBuckets els;
              date := d; startTime := s; endTime := e |}.
Proof. unfold new. intros -> -> ->. reflexivity. Qed.

Lemma combineWith_returns_sorted (tz : timeZone) (a b r : t) :
  combineWith tz a b = Return r -> bucketsSorted (elements r).
Proof.
  unfold combineWith.
  destruct (sort (compareStarts tz) [a; b]) as [|x [|y rest]];
    try discriminate.
  intros H. apply new_returns in H. destruct H as (_ & _ & _ & ->).
  simpl. apply sortBuckets_sorted.
Qed.

End SortById.

(** C8: whatever the order of the input buckets, each of the four element
    buckets of a constructed occurrence is sorted ascending by element id;
    the same holds for an occurrence that [combineWith] constructs. The
    construction returns whenever the date and the times are well formed. *)
Theorem C8_constructed_buckets_sorted_by_id :
  forall (i : Z) (lt : Period.lessonType) (lc : Period.lessonCode) (n : Z)
         (txt : string) (sub : option string) (act : Period.activityType)
         (sg : option string) (els : Period.elementBuckets) (d s e : string),
    (testDate d = true -> testTime s = true -> testTime e = true ->
     exists p, Period.new i lt lc n txt sub act sg els d s e = Return p)
    /\ (forall p, Period.new i lt lc n txt sub act sg els d s e = Return p ->
                  bucketsSorted (Period.elements p))
    /\ (forall tz p other r,
           Period.new i lt lc n txt sub act sg els d s e = Return p ->
           (Period.combineWith tz p other = Return r
            \/ Period.combineWith tz other p = Return r) ->
           bucketsSorted (Period.elements r)).
Proof.
  intros. split; [|split].
  - intros Hd Hs He. eexists. apply new_total; assumption.
  - intros p H. apply new_returns in H. destruct H as (_ & _ & _ & ->).
    simpl. apply sortBuckets_sorted.
  - intros tz p other r _ [H | H]; eapply combineWith_returns_sorted; exact H.
Qed.

(** C8 at buckets given in descending order. *)
Lemma C8_constructed_buckets_sorted_witness :
  exists p,
    Period.new 1 Period.lesson Period.regular 1 "M" None Period.Unterricht None
      unsortedBuckets "2022-04-20" "12:00" "13:00" = Return p
    /\ bucketsSorted (Period.elements p)
    /\ map PeriodElement.id (Period.teachers (Period.elements p)) = [1; 3; 3].
Proof.
  eexists. split; [reflexivity|]. split; [|reflexivity].
  apply (proj1 (proj2 (C8_constructed_buckets_sorted_by_id
           1 Period.lesson Period.regular 1 "M" None Period.Unterricht None
           unsortedBuckets "2022-04-20" "12:00" "13:00"))).
  reflexivity.
Defined.

(** C10: each stored bucket of a constructed occurrence is a permutation
    of the corresponding input bucket: the same elements with the same
    multiplicities, none added, removed or altered, in ascending order of
    the ids. *)
Theorem C10_constructed_buckets_permutation_of_input :
  forall (i : Z) (lt : Period.lessonType) (lc : Period.lessonCode) (n : Z)
         (txt : string) (sub : option string) (act : Period.activityType)
         (sg : option string) (els : Period.elementBuckets) (d s e : string)
         (p : Period.t),
    Period.new i lt lc n txt sub act sg els d s e = Return p ->
    bucketsPermuted els (Period.elements p)
    /\ bucketsSorted (Period.elements p).
Proof.
  intros until p. intros H.
  apply new_returns in H. destruct H as (_ & _ & _ & ->). simpl.
  split; [apply sortBuckets_perm | apply sortBuckets_sorted].
Qed.

(** C10 at buckets given in descending order. *)
Lemma C10_constructed_buckets_permutation_witness :
  bucketsPermuted unsortedBuckets
    (Period.sortBuckets unsortedBuckets).
Proof.
  exact (proj1 (C10_constructed_buckets_permutation_of_input
           1 Period.lesson Period.regular 1 "M" None Period.Unterricht None
           unsortedBuckets "2022-04-20" "12:00" "13:00" _ eq_refl)).
Defined.

(** C5 (counterexample): the constructor returns a period whose end time
    is before its start time; both strings are well formed. *)
Lemma C5_end_before_start_is_constructed :
  ~ throws_iff_malformed_and_ordered
      1 Period.lesson Period.regular 1 "M" None Period.Unterricht None
      noElements "2022-04-20" "13:00" "12:00".
Proof.
  intros [_ H]. specialize (H _ eq_refl). discriminate H.
Qed.

(** C5 (amended): the construction of an occurrence throws exactly when the
    date string or one of the two time strings is malformed; a successfully
    constructed occurrence stores the three strings as given, each well
    formed. The constructor does not compare the start time with the end
    time. *)
Theorem C5_construction_throws_iff_malformed :
  forall (i : Z) (lt : Period.lessonType) (lc : Period.lessonCode) (n : Z)
         (txt : string) (sub : option string) (act : Period.activityType)
         (sg : option string) (els : Period.elementBuckets) (d s e : string),
    (isReturn (Period.new i lt lc n txt sub act sg els d s e) = false
     <-> (testDate d = false \/ testTime s = false \/ testTime e = false))
    /\ (forall p, Period.new i lt lc n txt sub act sg els d s e = Return p ->
                  Period.wellFormed p = true
                  /\ Period.date p = d /\ Period.startTime p = s
                  /\ Period.endTime p = e)
    /\ (isReturn (Period.new i lt lc n txt sub act sg els d s e)
        = isReturn (Period.new i lt lc n txt sub act sg els d e s)).
Proof.
  intros. unfold Period.new.
  destruct (testDate d) eqn:Hd, (testTime s) eqn:Hs, (testTime e) eqn:He;
    simpl; (split; [split; [intros H; try discriminate H; auto
                           | intros [H | [H | H]]; try discriminate H;
                             reflexivity]
                   | split; [intros p H; try discriminate H|reflexivity]]).
  inversion H; subst; clear H. unfold Period.wellFormed. simpl.
  rewrite Hd, Hs, He. auto.
Qed.

(** C5 (amended) at a well-formed date and well-formed times. *)
Lemma C5_construction_witness :
  Period.wellFormed
    (testLesson 1 "2022-04-20" "12:00" "13:00" Period.regular noElements) = true.
Proof.
  exact (proj1 (proj1 (proj2 (C5_construction_throws_iff_malformed
           1 Period.lesson Period.regular 1 EmptyString None Period.Unterricht
           (Some "1"%string) noElements "2022-04-20" "12:00" "13:00"))
           _ eq_refl)).
Defined.

Import CombineStatements.

(** ** Combination of two periods *)

Section CombineFacts.

Import Period.

Lemma new_constructs
    (i : Z) (lt : lessonType) (lc : lessonCode) (n : Z) (txt : string)
    (sub : option string) (act : activityType) (sg : option string)
    (els : elementBuckets) (d s e : string) (p : t) :
  new i lt lc n txt sub act sg els d s e = Return p -> constructed p.
Proof.
  intros H. apply new_returns in H. destruct H as (Hd & Hs & He & ->).
  split.
  - unfold wellFormed. simpl. rewrite Hd, Hs, He. reflexivity.
  - apply sortBuckets_sorted.
Qed.

Lemma wellFormed_parts (p : t) :
  wellFormed p = true ->
  testDate (date p) = true
  /\ (exists days, dateValue (date p) = Some days)
  /\ (exists s, timeOfDay (startTime p) = Some s)
  /\ (exists e, timeOfDay (endTime p) = Some e).
Proof.
  unfold wellFormed, testDate, testTime, dateValue.
  intros H. apply andb_true_iff in H. destruct H as [H He].
  apply andb_true_iff in H. destruct H as [Hd Hs].
  destruct (dateFields (date p)) as [[[y m] d]|]; [|discriminate].
  destruct (timeOfDay (startTime p)); [|discriminate].
  destruct (timeOfDay (endTime p)); [|discriminate].
  repeat split; eauto.
Qed.

Lemma wellFormed_testTimes (p : t) :
  wellFormed p = true ->
  testTime (startTime p) = true /\ testTime (endTime p) = true.
Proof.
  unfold wellFormed. intros H.
  apply andb_true_iff in H. destruct H as [H He].
  apply andb_true_iff in H. destruct H as [_ Hs]. auto.
Qed.

Lemma withTimes_self (p : t) : withTimes p (startTime p) (endTime p) = p.
Proof. destruct p; reflexivity. Qed.

(** The start instant of a constructed occurrence is a number. *)
Lemma wellFormed_startValue (tz : timeZone) (p : t) :
  wellFormed p = true ->
  exists days mins,
    dateValue (date p) = Some days /\ timeOfDay (startTime p) = Some mins
    /\ getStartDateTimeValue tz p
       = Some (wallClock days mins - offsetAtLocal tz (wallClock days mins)).
Proof.
  intros H. destruct (wellFormed_parts p H) as (_ & (d & Hd) & (s & Hs) & _).
  exists d, s. unfold getStartDateTimeValue, dateTimeValue.
  rewrite Hd, Hs. auto.
Qed.

(** The combination of any two constructed occurrences. *)
Lemma combineWith_any (tz : timeZone) (a b : t) (ia ib : Z) :
  constructed a -> constructed b ->
  getStartDateTimeValue tz a = Some ia ->
  getStartDateTimeValue tz b = Some ib ->
  combineWith tz a b =
    Return (if ia <=? ib
            then withTimes a (startTime a) (endTime b)
            else withTimes a (startTime b) (endTime a)).
Proof.
  intros [Hw Hs] [Hw' _] Hia Hib.
  unfold combineWith. rewrite sort_pair.
  unfold compareStarts. rewrite Hia, Hib. simpl.
  destruct (wellFormed_parts a Hw) as (Hdate & _).
  destruct (wellFormed_testTimes a Hw) as [Hst Het].
  destruct (wellFormed_testTimes b Hw') as [Hst' Het'].
  unfold getDateAsString, getStartTimeAsString, getEndTimeAsString.
  replace (ia - ib <=? 0) with (ia <=? ib)
    by (destruct (Z.leb_spec ia ib); symmetry;
        [apply Z.leb_le | apply Z.leb_gt]; lia).
  destruct (ia <=? ib);
    rewrite new_total by assumption;
    rewrite (sortBuckets_fixpoint _ Hs); reflexivity.
Qed.

(** On one calendar day and without a clock change between the two
    starts, the start instants are in the order of the times of day. *)
Lemma instants_in_order_of_times (tz : timeZone) (a b : t) (ia ib ta tb : Z) :
  date a = date b -> sameOffsetAtStarts tz a b ->
  getStartDateTimeValue tz a = Some ia ->
  getStartDateTimeValue tz b = Some ib ->
  timeOfDay (startTime a) = Some ta -> timeOfDay (startTime b) = Some tb ->
  (ia <=? ib) = (ta <=? tb) /\ (ia = ib <-> ta = tb).
Proof.
  unfold sameOffsetAtStarts, startWallClock, getStartDateTimeValue,
    dateTimeValue.
  intros Hd Hoff Hia Hib Hta Htb. rewrite <- Hd in *.
  rewrite Hta in *. rewrite Htb in *.
  destruct (dateValue (date a)) as [days|]; [|discriminate].
  simpl in Hoff. inversion Hoff as [Hoff']. clear Hoff.
  inversion Hia; subst ia. inversion Hib; subst ib.
  rewrite Hoff'. unfold wallClock, msPerMinute. split.
  - destruct (Z.leb_spec ta tb); [apply Z.leb_le | apply Z.leb_gt]; lia.
  - lia.
Qed.

End CombineFacts.

Example combineWith_earlier_receiver :
  Period.combineWith utc firstHour secondHour
  = Return (testLesson 1 "2022-04-20" "12:00" "14:00" Period.regular noElements).
Proof. reflexivity. Qed.

Example combineWith_later_receiver :
  Period.combineWith utc secondHour firstHour
  = Return (testLesson 2 "2022-04-20" "12:00" "14:00" Period.regular noElements).
Proof. reflexivity. Qed.

(** In the hour that a clock change skips the start instants are not in
    the order of the times of day: the half hour from 02:30 starts after
    the half hour from 03:00, and their combination runs from 03:00 to
    03:00. *)
Example combineWith_in_the_gap :
  Period.canBeCombinedWith halfHourInGap halfHourAfterGap = true
  /\ Period.combineWith centralEuropeSpring2022 halfHourInGap halfHourAfterGap
     = Return (withTimes halfHourInGap "03:00" "03:00")
  /\ Period.combineWith utc halfHourInGap halfHourAfterGap
     = Return (withTimes halfHourInGap "02:30" "03:30").
Proof. repeat split. Qed.

(** C1 (counterexample): when the receiver is the later occurrence, the
    combination has the receiver's id (2), not the id of the earlier
    occurrence (1): it is not the earlier occurrence with another end. *)
Lemma C1_later_receiver_keeps_its_own_fields :
  Period.canBeCombinedWith secondHour firstHour = true
  /\ Period.earlierOf utc secondHour firstHour = firstHour
  /\ ~ combination_is_earlier_with_later_end utc secondHour firstHour.
Proof.
  split; [reflexivity|]. split; [reflexivity|].
  intros H. specialize (H eq_refl). discriminate H.
Qed.

(** C1 (amended): for constructed occurrences [a] and [b] that satisfy
    [canBeCombinedWith], [a.combineWith(b)] returns a new occurrence
    identical to the receiver [a] in every field, except that its start
    time is the start time of the earlier of the two and its end time is
    the end time of the other. The earlier one is the one with the smaller
    start instant (date and start time, read in the host's time zone), and
    the receiver if the instants are equal; where the zone has the same
    offset at the two starts, it is the one with the earlier start time of
    day. *)
Theorem C1_combineWith_receiver_with_outer_times :
  forall (tz : timeZone) (a b : Period.t),
    constructed a -> constructed b ->
    Period.canBeCombinedWith a b = true ->
    exists ia ib,
      Period.getStartDateTimeValue tz a = Some ia
      /\ Period.getStartDateTimeValue tz b = Some ib
      /\ Period.combineWith tz a b =
           Return (if ia <=? ib
                   then withTimes a (Period.startTime a) (Period.endTime b)
                   else withTimes a (Period.startTime b) (Period.endTime a))
      /\ (sameOffsetAtStarts tz a b ->
          exists ta tb,
            timeOfDay (Period.startTime a) = Some ta
            /\ timeOfDay (Period.startTime b) = Some tb
            /\ (ia <=? ib) = (ta <=? tb)).
Proof.
  intros tz a b Ha Hb Hc.
  destruct (wellFormed_startValue tz a (proj1 Ha)) as (da & ta & _ & Hta & Hia).
  destruct (wellFormed_startValue tz b (proj1 Hb)) as (db & tb & _ & Htb & Hib).
  eexists. eexists. split; [exact Hia|]. split; [exact Hib|].
  split; [apply combineWith_any; assumption|].
  intros Hoff. exists ta, tb. split; [assumption|]. split; [assumption|].
  apply (instants_in_order_of_times tz a b); try assumption.
  apply canBeCombinedWith_same_date. assumption.
Qed.

(** C1 (amended) with the later occurrence as the receiver, in the zone
    with the clock change, on a day without one. *)
Lemma C1_combineWith_witness :
  Period.combineWith centralEuropeSpring2022 secondHour firstHour
  = Return (withTimes secondHour "12:00" "14:00").
Proof.
  destruct (C1_combineWith_receiver_with_outer_times
              centralEuropeSpring2022 secondHour firstHour)
    as (ia & ib & Hia & Hib & Hc & _).
  - split; [reflexivity | repeat split; constructor].
  - split; [reflexivity | repeat split; constructor].
  - reflexivity.
  - rewrite Hc. inversion Hia; subst ia. inversion Hib; subst ib.
    reflexivity.
Defined.

Import TransportStatements.

(** ** The cookie store of the transport *)

Section CookieFacts.

Import RPCClient.

Lemma lookup_defineOwn (n k v : string) (c : cookieStore) :
  lookup n (defineOwn k v c) = if String.eqb k n then Some v else lookup n c.
Proof.
  induction c as [|[k' w] rest IH]; simpl.
  - reflexivity.
  - destruct (String.eqb k' k) eqn:E; simpl.
    + apply String.eqb_eq in E. subst k'.
      destruct (String.eqb k n); reflexivity.
    + rewrite IH. destruct (String.eqb k' n) eqn:E'; [|reflexivity].
      apply String.eqb_eq in E'. subst k'.
      rewrite String.eqb_sym, E. reflexivity.
Qed.

(** An assignment to another name than [__proto__] defines the property;
    an assignment to [__proto__] changes nothing. *)
Lemma lookup_assign (n k v : string) (c : cookieStore) :
  lookup n (assign k v c)
  = if negb (String.eqb k protoName) && String.eqb k n
    then Some v else lookup n c.
Proof.
  unfold assign. destruct (String.eqb k protoName); simpl; [reflexivity|].
  apply lookup_defineOwn.
Qed.

Lemma find_app {A : Type} (f : A -> bool) (l1 l2 : list A) :
  find f (l1 ++ l2)
  = match find f l1 with Some x => Some x | None => find f l2 end.
Proof.
  induction l1 as [|x l1 IH]; simpl; [reflexivity|].
  destruct (f x); [reflexivity | exact IH].
Qed.

(** The cookies of a response override the store, name by name, the last
    cookie of a name winning; the name [__proto__] is never stored. *)
Lemma lookup_capture_last (n : string) (cs : list (string * string)) :
  forall c,
    lookup n (capture c cs)
    = if String.eqb n protoName then lookup n c
      else match lastSet n cs with
           | Some nv => Some (snd nv)
           | None => lookup n c
           end.
Proof.
  unfold capture, lastSet.
  induction cs as [|[k v] cs IH]; intros c; simpl.
  - destruct (String.eqb n protoName); reflexivity.
  - rewrite IH, find_app. simpl. rewrite lookup_assign.
    destruct (String.eqb n protoName) eqn:En.
    + apply String.eqb_eq in En. subst n.
      destruct (String.eqb k protoName); reflexivity.
    + destruct (find _ (rev cs)); [reflexivity|].
      destruct (String.eqb k n) eqn:Ek; simpl.
      * apply String.eqb_eq in Ek. subst k. rewrite En. reflexivity.
      * rewrite andb_false_r. reflexivity.
Qed.

Lemma filter_split_perm {A : Type} (f : A -> bool) (l : list A) :
  Permutation l (filter f l ++ filter (fun x => negb (f x)) l).
Proof.
  induction l as [|x l IH]; simpl; [apply perm_nil|].
  destruct (f x); simpl.
  - apply perm_skip, IH.
  - apply Permutation_cons_app, IH.
Qed.

(** [Object.entries] lists every own property once. *)
Lemma entries_perm (c : cookieStore) : Permutation c (entries c).
Proof.
  unfold entries.
  eapply perm_trans; [apply (filter_split_perm isArrayIndex)|].
  apply Permutation_app_tail, sort_perm.
Qed.

Lemma lookup_in (n v : string) (c : cookieStore) :
  lookup n c = Some v -> In (n, v) c.
Proof.
  induction c as [|[k w] rest IH]; simpl; [discriminate|].
  destruct (String.eqb k n) eqn:E.
  - apply String.eqb_eq in E. intros H. inversion H. subst. left. reflexivity.
  - intros H. right. apply IH, H.
Qed.

Lemma lookup_entry (n v : string) (c : cookieStore) :
  lookup n c = Some v -> In (n ++ "=" ++ v)%string (cookieEntries c).
Proof.
  intros H. apply lookup_in in H.
  unfold cookieEntries.
  apply (in_map (fun kv => (fst kv ++ "=" ++ snd kv)%string) _ (n, v)).
  eapply Permutation_in; [apply entries_perm | exact H].
Qed.

Lemma storeAfter_success (c : cookieStore) (r : response) :
  succeeds r = true -> storeAfter c r = capture c (setCookies r).
Proof.
  unfold succeeds, storeAfter, request. intros H.
  apply andb_true_iff in H. destruct H as [Hs He]. rewrite Hs. simpl.
  destruct (error r) as [[code msg]|]; [discriminate|]. reflexivity.
Qed.

Lemma storeAfter_failure (c : cookieStore) (r : response) :
  succeeds r = false -> storeAfter c r = c.
Proof.
  unfold succeeds, storeAfter, request. intros H.
  destruct (status r =? 200); simpl in *; [|reflexivity].
  destruct (error r) as [[code msg]|]; [reflexivity|discriminate].
Qed.

Lemma request_header (c : cookieStore) (r : response) :
  fst (fst (request c r)) = join ";" (cookieEntries c).
Proof.
  unfold request. destruct (negb (status r =? 200)); [reflexivity|].
  destruct (error r) as [[code msg]|]; reflexivity.
Qed.

(** A cookie stays in the store while no successful response sets its
    name again. *)
Lemma lookup_storeAfterAll (n v : string) (rs : list response) :
  forall c,
    lookup n c = Some v ->
    Forall (fun r' => succeeds r' = true ->
                      lastSet n (setCookies r') = None) rs ->
    lookup n (storeAfterAll c rs) = Some v.
Proof.
  unfold storeAfterAll.
  induction rs as [|r' rs IH]; intros c Hc Hall; simpl; [assumption|].
  inversion Hall as [|? ? Hr' Hrest]; subst.
  apply IH; [|assumption].
  destruct (succeeds r') eqn:E.
  - rewrite storeAfter_success by assumption.
    rewrite lookup_capture_last, (Hr' eq_refl).
    destruct (String.eqb n protoName); assumption.
  - rewrite storeAfter_failure by assumption. assumption.
Qed.

End CookieFacts.

Example request_replays_captured_cookie :
  fst (fst (RPCClient.request
              (RPCClient.storeAfter RPCClient.new okResponse) plainResponse))
  = "JSESSIONID=A1B2"%string.
Proof. reflexivity. Qed.

(** C9 (counterexample): the cookie of a response with status 503, and the
    cookie of a response that carries an RPC error object, are not in the
    store afterwards; the next request sends an empty [Cookie] header. *)
Lemma C9_cookies_of_failed_responses_are_dropped :
  ~ cookies_replayed RPCClient.new unavailableResponse []
  /\ ~ cookies_replayed RPCClient.new rpcErrorResponse []
  /\ fst (fst (RPCClient.request
                 (RPCClient.storeAfter RPCClient.new unavailableResponse)
                 plainResponse)) = EmptyString.
Proof.
  split; [|split].
  - intros H. apply (H "JSESSIONID"%string "A1B2"%string). reflexivity.
  - intros H. apply (H "JSESSIONID"%string "A1B2"%string). reflexivity.
  - reflexivity.
Qed.

(** A cookie of the name [__proto__] is not stored, also when the response
    succeeds: the assignment reaches the inherited setter. *)
Example request_drops_proto_cookie :
  fst (fst (RPCClient.request
              (RPCClient.storeAfter RPCClient.new protoResponse) plainResponse))
  = "sid=1"%string.
Proof. reflexivity. Qed.

(** Cookies whose names are array indices come first in the header, in
    ascending order of the number, whenever they were set; a numeral with
    a leading zero is no array index. *)
Example request_lists_index_names_first :
  fst (fst (RPCClient.request
              (RPCClient.storeAfter RPCClient.new indexResponse) plainResponse))
  = "2=x;10=z;b=y;01=w"%string.
Proof. reflexivity. Qed.

(** C9 (amended): the cookies that a successful response sets (status 200
    and no RPC error object), other than a cookie of the name [__proto__],
    are captured into the client's cookie store, the last cookie of a
    name giving its value, and each is an entry of the [Cookie] header of
    every subsequent request of the same client until a later successful
    response sets a cookie of the same name. A response with another
    status or with an RPC error object leaves the store as it was. *)
Theorem C9_cookies_of_successful_responses_are_replayed :
  forall (c : RPCClient.cookieStore) (r : RPCClient.response),
    (RPCClient.succeeds r = false -> RPCClient.storeAfter c r = c)
    /\ (forall (rs : list RPCClient.response) (next : RPCClient.response)
               (name value : string),
           RPCClient.succeeds r = true ->
           name <> RPCClient.protoName ->
           option_map snd (RPCClient.lastSet name (RPCClient.setCookies r))
           = Some value ->
           Forall (fun r' =>
                     RPCClient.succeeds r' = true ->
                     RPCClient.lastSet name (RPCClient.setCookies r') = None)
                  rs ->
           exists entries,
             fst (fst (RPCClient.request
                         (RPCClient.storeAfterAll (RPCClient.storeAfter c r) rs)
                         next))
             = join ";" entries
             /\ In (name ++ "=" ++ value)%string entries).
Proof.
  intros c r. split.
  - apply storeAfter_failure.
  - intros rs next name value Hs Hname Hset Hrs.
    eexists. split; [apply request_header|].
    apply lookup_entry. apply lookup_storeAfterAll; [|assumption].
    rewrite storeAfter_success by assumption.
    rewrite lookup_capture_last.
    apply String.eqb_neq in Hname. rewrite Hname.
    destruct (RPCClient.lastSet name (RPCClient.setCookies r)) as [nv|];
      [exact Hset | discriminate Hset].
Qed.

(** C9 (amended) on a session: a successful response sets the session
    cookie, a failing response and a successful one without cookies
    follow, and the next request still sends it. *)
Lemma C9_cookies_replayed_witness :
  exists entries,
    fst (fst (RPCClient.request
                (RPCClient.storeAfterAll
                   (RPCClient.storeAfter RPCClient.new okResponse)
                   [unavailableResponse; plainResponse])
                plainResponse))
    = join ";" entries
    /\ In "JSESSIONID=A1B2"%string entries.
Proof.
  apply (proj2 (C9_cookies_of_successful_responses_are_replayed
                  RPCClient.new okResponse)
           [unavailableResponse; plainResponse] plainResponse
           "JSESSIONID"%string "A1B2"%string).
  - reflexivity.
  - discriminate.
  - reflexivity.
  - repeat constructor; simpl; intros H; try discriminate H; reflexivity.
Defined.

Import EngineStatements.

(** ** Step A: grouping into schedules *)

Section GroupingFacts.

Import Period ScheduleCollection.

Variable tz : timeZone.

Lemma optionZ_eqb_eq (a b : option Z) : optionZ_eqb a b = true <-> a = b.
Proof.
  destruct a, b; simpl; split; try congruence.
  - intros H. apply Z.eqb_eq in H. congruence.
  - intros H. inversion H. apply Z.eqb_refl.
Qed.

Lemma slotKey_eqb_eq (k1 k2 : slotKey) : slotKey_eqb k1 k2 = true <-> k1 = k2.
Proof.
  destruct k1 as [[[n1 w1] s1] e1], k2 as [[[n2 w2] s2] e2]. simpl.
  rewrite !andb_true_iff, Z.eqb_eq, optionZ_eqb_eq, !String.eqb_eq.
  split; [intros [[[-> ->] ->] ->]; reflexivity|].
  intros H. inversion H. auto.
Qed.

Lemma slotKey_eqb_refl (k : slotKey) : slotKey_eqb k k = true.
Proof. apply slotKey_eqb_eq. reflexivity. Qed.

Lemma slotKey_eqb_sym (k1 k2 : slotKey) : slotKey_eqb k1 k2 = slotKey_eqb k2 k1.
Proof.
  destruct (slotKey_eqb k1 k2) eqn:E1, (slotKey_eqb k2 k1) eqn:E2; auto.
  - apply slotKey_eqb_eq in E1. subst. rewrite slotKey_eqb_refl in E2.
    discriminate.
  - apply slotKey_eqb_eq in E2. subst. rewrite slotKey_eqb_refl in E1.
    discriminate.
Qed.

Lemma wellFormed_getDay (l : t) :
  wellFormed l = true -> exists w, getDay tz (date l) = Some w.
Proof.
  intros H. destruct (wellFormed_parts l H) as (_ & (days & Hd) & _).
  unfold getDay. rewrite Hd. eauto.
Qed.

(** For an occurrence with a valid date, belonging to the same schedule
    is equality of the slot keys. *)
Lemma belongsToSameScheduleAs_key (l first : t) (w : Z) :
  getDay tz (date l) = Some w ->
  belongsToSameScheduleAs tz l first
  = slotKey_eqb (scheduleKey tz l) (scheduleKey tz first).
Proof.
  intros Hw. unfold belongsToSameScheduleAs, scheduleKey, slotKey_eqb.
  unfold getStartTimeAsString, getEndTimeAsString. rewrite Hw.
  destruct (getDay tz (date first)); reflexivity.
Qed.

Lemma joinLastOrOpen_app (xs : list (list t)) (g : list t) (l : t) :
  joinLastOrOpen tz (xs ++ [g]) l = xs ++ joinLastOrOpen tz [g] l.
Proof.
  induction xs as [|x xs IH]; [reflexivity|].
  change ((x :: xs) ++ [g]) with (x :: (xs ++ [g])).
  destruct (xs ++ [g]) as [|y ys] eqn:E.
  - destruct xs; discriminate E.
  - change (joinLastOrOpen tz (x :: y :: ys) l)
      with (x :: joinLastOrOpen tz (y :: ys) l).
    rewrite IH. reflexivity.
Qed.

Lemma addUnderKey_app (m' rest : list (slotKey * list t)) (k : slotKey) (l : t) :
  Forall (fun kg => slotKey_eqb (fst kg) k = false) m' ->
  addUnderKey (m' ++ rest) k l = m' ++ addUnderKey rest k l.
Proof.
  induction 1 as [|[k' g] m' Hk _ IH]; [reflexivity|].
  simpl in *. rewrite Hk, IH. reflexivity.
Qed.

Lemma joinLastOrOpen_single (first : t) (more : list t) (l : t) :
  joinLastOrOpen tz [first :: more] l
  = if belongsToSameScheduleAs tz l first
    then [first :: (more ++ [l])] else [first :: more; [l]].
Proof. reflexivity. Qed.

Lemma addUnderKey_single (k k' : slotKey) (g : list t) (l : t) :
  addUnderKey [(k, g)] k' l
  = if slotKey_eqb k k' then [(k, g ++ [l])] else [(k, g); (k', [l])].
Proof. reflexivity. Qed.

(** The invariant of the two iterations, for a state whose most recently
    opened schedule has the key [k] and the members [first :: more]. *)
Lemma groupings_step_agree (ls : list t) :
  forall (m' : list (slotKey * list t)) (first : t) (more : list t),
    Forall (fun l => wellFormed l = true) ls ->
    keysAdjacent tz ls = true ->
    Forall (fun kg => existsb (hasKey tz (fst kg)) ls = false) m' ->
    existsb (hasKey tz (scheduleKey tz first)) (dropRun tz (scheduleKey tz first) ls)
      = false ->
    fold_left (joinLastOrOpen tz) ls (map snd m' ++ [first :: more])
    = map snd (fold_left (fun m l => addUnderKey m (scheduleKey tz l) l) ls
                         (m' ++ [(scheduleKey tz first, first :: more)])).
Proof.
  induction ls as [|l ls IH]; intros m' first more Hwf Hadj Hm' Hlast.
  - simpl. rewrite map_app. reflexivity.
  - inversion Hwf as [|? ? Hl Hwf']; subst.
    destruct (wellFormed_getDay l Hl) as [w Hw].
    simpl in Hadj. apply andb_true_iff in Hadj. destruct Hadj as [Hrun Hadj].
    apply negb_true_iff in Hrun.
    assert (Hm'l : Forall (fun kg => slotKey_eqb (fst kg) (scheduleKey tz l) = false) m').
    { eapply Forall_impl; [|exact Hm']. intros kg H. simpl in H.
      apply orb_false_iff in H. destruct H as [H _].
      unfold hasKey in H. rewrite slotKey_eqb_sym. exact H. }
    assert (Hm'ls : Forall (fun kg => existsb (hasKey tz (fst kg)) ls = false) m').
    { eapply Forall_impl; [|exact Hm']. intros kg H. simpl in H.
      apply orb_false_iff in H. apply H. }
    simpl fold_left.
    rewrite joinLastOrOpen_app, (addUnderKey_app _ _ _ _ Hm'l).
    rewrite joinLastOrOpen_single, addUnderKey_single.
    rewrite (belongsToSameScheduleAs_key l first w Hw).
    rewrite (slotKey_eqb_sym (scheduleKey tz first)).
    cbn [dropRun] in Hlast.
    destruct (slotKey_eqb (scheduleKey tz l) (scheduleKey tz first)) eqn:E.
    + change ((first :: more) ++ [l]) with (first :: (more ++ [l])).
      apply IH; assumption.
    + cbn [existsb] in Hlast. unfold hasKey at 1 in Hlast.
      rewrite E in Hlast. apply orb_false_iff in Hlast.
      destruct Hlast as [_ Hlast].
      replace (map snd m' ++ [first :: more; [l]])
        with (map snd (m' ++ [(scheduleKey tz first, first :: more)]) ++ [[l]])
        by (rewrite map_app, <- app_assoc; reflexivity).
      replace (m' ++ [(scheduleKey tz first, first :: more); (scheduleKey tz l, [l])])
        with ((m' ++ [(scheduleKey tz first, first :: more)])
                ++ [(scheduleKey tz l, [l])])
        by (rewrite <- app_assoc; reflexivity).
      apply IH; try assumption.
      apply Forall_app. split; [assumption|].
      constructor; [|constructor]. exact Hlast.
Qed.

Lemma groupings_agree_when_adjacent (ls : list t) :
  Forall (fun l => wellFormed l = true) ls ->
  keysAdjacent tz ls = true ->
  groupSequential tz ls = groupByKey tz ls.
Proof.
  unfold groupSequential, groupByKey, partitionByKey.
  destruct ls as [|l ls]; [reflexivity|].
  intros Hwf Hadj. inversion Hwf; subst.
  simpl in Hadj. apply andb_true_iff in Hadj. destruct Hadj as [Hrun Hadj].
  apply negb_true_iff in Hrun. simpl fold_left.
  apply (groupings_step_agree ls [] l []); auto.
Qed.

(** One key throughout: one group, in both iterations. *)
Lemma groupSequential_one_key (ls : list t) :
  forall (first : t) (more : list t) (w : Z),
    Forall (fun l => getDay tz (date l) = Some w
                     /\ scheduleKey tz l = scheduleKey tz first) ls ->
    fold_left (joinLastOrOpen tz) ls [first :: more] = [first :: more ++ ls].
Proof.
  induction ls as [|l ls IH]; intros first more w Hall;
    cbn [fold_left]; try rewrite joinLastOrOpen_single.
  - rewrite app_nil_r. reflexivity.
  - inversion Hall as [|? ? [Hw Hk] Hrest]; subst.
    rewrite (belongsToSameScheduleAs_key l first w Hw), Hk, slotKey_eqb_refl.
    rewrite (IH first (more ++ [l]) w Hrest), <- app_assoc. reflexivity.
Qed.

Lemma partitionByKey_one_key (ls : list t) :
  forall (k : slotKey) (g : list t),
    Forall (fun l => scheduleKey tz l = k) ls ->
    fold_left (fun m l => addUnderKey m (scheduleKey tz l) l) ls [(k, g)]
    = [(k, g ++ ls)].
Proof.
  induction ls as [|l ls IH]; intros k g Hall;
    cbn [fold_left]; try rewrite addUnderKey_single.
  - rewrite app_nil_r. reflexivity.
  - inversion Hall as [|? ? Hk Hrest]; subst.
    rewrite slotKey_eqb_refl, (IH _ _ Hrest), <- app_assoc. reflexivity.
Qed.

End GroupingFacts.

(** C2: for every non-empty list of occurrences that all share the lesson
    number, the weekday, the start time and the end time, [fromLessons]
    produces exactly one schedule, and that schedule holds all the input
    occurrences in input order; this is so under either description of the
    grouping. *)
Theorem C2_fromLessons_one_schedule_for_one_slot :
  forall (tz : timeZone) (ls : list Period.t) (n w : Z) (s e : string),
    ls <> [] ->
    Forall (sharesSlot tz n w s e) ls ->
    (exists sched,
        ScheduleCollection.fromLessons tz ls = [sched]
        /\ Schedule.lessons sched = ls)
    /\ (exists sched,
           ScheduleCollection.fromLessonsByKey tz ls = [sched]
           /\ Schedule.lessons sched = ls).
Proof.
  intros tz ls n w s e Hne Hall.
  destruct ls as [|first ls]; [congruence|]. clear Hne.
  assert (Hkeys : Forall (fun l => ScheduleCollection.scheduleKey tz l
                                   = (n, Some w, s, e))
                         (first :: ls)).
  { eapply Forall_impl; [|exact Hall].
    intros l (Hn & Hw & Hs & He). unfold ScheduleCollection.scheduleKey.
    rewrite Hn, Hw, Hs, He. reflexivity. }
  inversion Hall as [|? ? Hfirst Hrest]; subst.
  inversion Hkeys as [|? ? Hkfirst Hkrest]; subst.
  split.
  - unfold ScheduleCollection.fromLessons, ScheduleCollection.groupSequential.
    simpl fold_left.
    rewrite (groupSequential_one_key tz ls first [] w).
    + simpl. eexists. split; reflexivity.
    + rewrite Forall_forall in *. intros l Hl. split.
      * apply (Hrest l Hl).
      * rewrite Hkfirst. apply (Hkrest l Hl).
  - unfold ScheduleCollection.fromLessonsByKey, ScheduleCollection.groupByKey,
      ScheduleCollection.partitionByKey.
    simpl fold_left.
    rewrite (partitionByKey_one_key tz ls _ [first]).
    + simpl. eexists. split; reflexivity.
    + rewrite Hkfirst. exact Hkrest.
Qed.

(** C2 on the weekly lessons of the repository's test. *)
Lemma C2_fromLessons_witness :
  (exists sched,
      ScheduleCollection.fromLessons utc WEEKLY_LESSONS = [sched]
      /\ Schedule.lessons sched = WEEKLY_LESSONS)
  /\ (exists sched,
         ScheduleCollection.fromLessonsByKey utc WEEKLY_LESSONS = [sched]
         /\ Schedule.lessons sched = WEEKLY_LESSONS).
Proof.
  apply (C2_fromLessons_one_schedule_for_one_slot utc
           WEEKLY_LESSONS 1 3 "12:00" "13:00").
  - discriminate.
  - repeat constructor.
Defined.

(** C6 (counterexample): on the chronologically ordered lessons of the
    repository's test of partial combination, whose slot keys alternate,
    the iteration over the most recently opened schedule opens four
    schedules and the partition by key two. *)
Lemma C6_alternating_keys_group_differently :
  chronological utc PARTIALLY_DIFFERENT_OCCURRENCE = true
  /\ List.length (ScheduleCollection.fromLessons utc
                    PARTIALLY_DIFFERENT_OCCURRENCE) = 4%nat
  /\ List.length (ScheduleCollection.fromLessonsByKey utc
                    PARTIALLY_DIFFERENT_OCCURRENCE) = 2%nat
  /\ ~ groupings_agree utc PARTIALLY_DIFFERENT_OCCURRENCE.
Proof.
  repeat split.
  intros H. specialize (H eq_refl).
  apply (f_equal (@List.length _)) in H. discriminate H.
Qed.

(** C6 (amended): the two descriptions of step A's grouping produce the
    same schedules, in the same order, for every input list of constructed
    occurrences in which the occurrences of equal slot key (lesson number,
    weekday, start time, end time) are adjacent, so that no key returns
    after another key has been seen. *)
Theorem C6_groupings_agree_when_equal_keys_adjacent :
  forall (tz : timeZone) (ls : list Period.t),
    Forall (fun l => Period.wellFormed l = true) ls ->
    ScheduleCollection.keysAdjacent tz ls = true ->
    ScheduleCollection.groupSequential tz ls
    = ScheduleCollection.groupByKey tz ls
    /\ ScheduleCollection.fromLessons tz ls
       = ScheduleCollection.fromLessonsByKey tz ls.
Proof.
  intros tz ls Hwf Hadj.
  pose proof (groupings_agree_when_adjacent tz ls Hwf Hadj) as H.
  split; [exact H|].
  unfold ScheduleCollection.fromLessons, ScheduleCollection.fromLessonsByKey.
  rewrite H. reflexivity.
Qed.

(** C6 (amended) on the two adjacent hours of one day. *)
Lemma C6_groupings_agree_witness :
  ScheduleCollection.groupSequential utc COMBINABLE_SCHEDULES
    = ScheduleCollection.groupByKey utc COMBINABLE_SCHEDULES
  /\ ScheduleCollection.fromLessons utc COMBINABLE_SCHEDULES
     = ScheduleCollection.fromLessonsByKey utc COMBINABLE_SCHEDULES.
Proof.
  apply C6_groupings_agree_when_equal_keys_adjacent.
  - repeat constructor.
  - reflexivity.
Defined.
Import MergeStatements.

(** ** Step B: merging two schedules *)

Example three_weeks_grouping :
  ScheduleCollection.fromLessonsByKey utc THREE_WEEKS
  = [firstHours; secondHours].
Proof. reflexivity. Qed.

Example three_weeks_changed :
  map (fun s => map Period.id (Schedule.changed s))
      (ScheduleCollection.combineSequentialSchedules utc
         [firstHours; secondHours])
  = [[3; 5; 6]].
Proof. reflexivity. Qed.

(** An occurrence without a date partner stays in the merged schedule. *)
Example uneven_schedules_keep_every_occurrence :
  map (fun s => map Period.id (Schedule.lessons s))
      (ScheduleCollection.combineSequentialSchedules utc
         [threeFirstHours; twoSecondHours])
  = [[1; 3; 5]]
  /\ map (fun s => map Period.id (Schedule.changed s))
         (ScheduleCollection.combineSequentialSchedules utc
            [threeFirstHours; twoSecondHours])
     = [[5]].
Proof. split; reflexivity. Qed.


Section MergeFacts.

Import Period ScheduleCollection.

Variable tz : timeZone.

Lemma extract_some (f : t -> bool) (l : list t) :
  forall b l',
    extract f l = Some (b, l') ->
    f b = true /\ (forall y, In y l <-> y = b \/ In y l').
Proof.
  induction l as [|x l IH]; intros b l' H; simpl in H; [discriminate|].
  destruct (f x) eqn:E.
  - inversion H; subst. split; [assumption|].
    intros y. simpl. split; intros [K | K]; auto.
  - destruct (extract f l) as [[y0 rest]|]; [|discriminate].
    inversion H; subst. destruct (IH b rest eq_refl) as [Hf Hin].
    split; [assumption|]. intros y. simpl. rewrite Hin. tauto.
Qed.


Lemma in_singlesOf (ps : list pairing) (x : t) :
  In x (singlesOf ps) <-> In (Alone x) ps.
Proof.
  unfold singlesOf. rewrite in_flat_map. split.
  - intros ([a' b' | x'] & Hin & H); simpl in H; [contradiction|].
    destruct H as [H | []]. subst. assumption.
  - intros H. exists (Alone x). split; [assumption | left; reflexivity].
Qed.

(** A pairing joins an occurrence of the first list with one of the second
    of the same date; an occurrence on its own comes from one of them. *)
Lemma pairByDate_sound (A : list t) :
  forall B,
    (forall a b, In (Both a b) (pairByDate A B) ->
                 In a A /\ In b B /\ date a = date b)
    /\ (forall x, In (Alone x) (pairByDate A B) -> In x A \/ In x B).
Proof.
  induction A as [|a0 A IH]; intros B; simpl.
  - split.
    + intros a b H. apply in_map_iff in H. destruct H as (y & H & _).
      discriminate H.
    + intros x H. apply in_map_iff in H. destruct H as (y & H & Hy).
      inversion H; subst. auto.
  - destruct (extract (sameDate a0) B) as [[b0 B']|] eqn:E.
    + destruct (extract_some _ _ _ _ E) as [Hd HB].
      destruct (IH B') as [IH1 IH2]. split.
      * intros a b [H | H].
        -- inversion H; subst. split; [auto|]. split; [apply HB; auto|].
           unfold sameDate, getDateAsString in Hd.
           apply String.eqb_eq. assumption.
        -- destruct (IH1 a b H) as (Ha & Hb & Hdate).
           split; [auto|]. split; [apply HB; auto | assumption].
      * intros x [H | H]; [discriminate H|].
        destruct (IH2 x H) as [K | K]; [auto|]. right. apply HB. auto.
    + destruct (IH B) as [IH1 IH2]. split.
      * intros a b [H | H]; [discriminate H|].
        destruct (IH1 a b H) as (Ha & Hb & Hdate). auto.
      * intros x [H | H].
        -- inversion H; subst. auto.
        -- destruct (IH2 x H) as [K | K]; auto.
Qed.



Lemma unpaired_in (A B : list t) (x : t) :
  In x (unpaired A B) -> In x A \/ In x B.
Proof.
  unfold unpaired. rewrite in_singlesOf.
  apply (proj2 (pairByDate_sound A B)).
Qed.









End MergeFacts.



Import FurtherInputs.

(** * Further properties of the code *)

(** ** The comparison of elements *)

Section ElementComparisonFacts.

Import Period.

Lemma hasTheSameElementsAs_trans (a b c : t) :
  hasTheSameElementsAs a b = true -> hasTheSameElementsAs b c = true ->
  hasTheSameElementsAs a c = true.
Proof.
  rewrite !hasTheSameElementsAs_ids.
  intros (H1 & H2 & H3 & H4) (K1 & K2 & K3 & K4).
  repeat split; etransitivity; eassumption.
Qed.

Lemma ids_sorted (l : list PeriodElement.t) :
  StronglySorted idLe l -> StronglySorted Z.le (ids l).
Proof.
  induction 1 as [|x xs Hs IH Hall]; simpl; constructor.
  - exact IH.
  - unfold ids. rewrite Forall_map. exact Hall.
Qed.

(** Two ascending lists of numbers with the same members, each as often,
    are the same list. *)
Lemma sorted_permutation_eq (l1 : list Z) :
  forall l2,
    StronglySorted Z.le l1 -> StronglySorted Z.le l2 ->
    Permutation l1 l2 -> l1 = l2.
Proof.
  induction l1 as [|x xs IH]; intros l2 H1 H2 Hp.
  - apply Permutation_nil in Hp. congruence.
  - destruct l2 as [|y ys].
    + apply Permutation_sym, Permutation_nil in Hp. discriminate.
    + inversion H1 as [|? ? Hxs Hx]; subst.
      inversion H2 as [|? ? Hys Hy]; subst.
      assert (Hxy : x = y).
      { assert (Hin1 : In x (y :: ys))
          by (eapply Permutation_in; [exact Hp | left; reflexivity]).
        assert (Hin2 : In y (x :: xs))
          by (eapply Permutation_in;
              [apply Permutation_sym; exact Hp | left; reflexivity]).
        rewrite Forall_forall in Hx, Hy.
        destruct Hin1 as [E | Hin1]; [congruence|].
        destruct Hin2 as [E | Hin2]; [congruence|].
        specialize (Hx y Hin2). specialize (Hy x Hin1). lia. }
      subst y. f_equal. apply IH; try assumption.
      eapply Permutation_cons_inv. exact Hp.
Qed.

Lemma ids_sort_perm (l : list PeriodElement.t) :
  Permutation (ids l) (ids (sort compareIds l)).
Proof. unfold ids. apply Permutation_map, sort_perm. Qed.

(** The ids of the sorted buckets agree exactly when the buckets hold the
    same ids, each as often. *)
Lemma ids_sort_eq_iff (l1 l2 : list PeriodElement.t) :
  ids (sort compareIds l1) = ids (sort compareIds l2)
  <-> Permutation (ids l1) (ids l2).
Proof.
  split.
  - intros H. eapply perm_trans; [apply ids_sort_perm|].
    rewrite H. apply Permutation_sym, ids_sort_perm.
  - intros H. apply sorted_permutation_eq.
    + apply ids_sorted, sort_ids_sorted.
    + apply ids_sorted, sort_ids_sorted.
    + eapply perm_trans; [apply Permutation_sym, ids_sort_perm|].
      eapply perm_trans; [exact H | apply ids_sort_perm].
Qed.

End ElementComparisonFacts.

(** X1: [hasTheSameElementsAs] holds exactly when, bucket by bucket
    (classes, teachers, subjects, rooms), the two occurrences have the same
    sequence of element ids; names, long names and the substituted variant
    of the elements play no part. *)
Theorem X1_hasTheSameElementsAs_compares_id_sequences :
  forall a b : Period.t,
    Period.hasTheSameElementsAs a b = true
    <-> (ids (Period.classes (Period.elements a))
           = ids (Period.classes (Period.elements b))
         /\ ids (Period.teachers (Period.elements a))
            = ids (Period.teachers (Period.elements b))
         /\ ids (Period.subjects (Period.elements a))
            = ids (Period.subjects (Period.elements b))
         /\ ids (Period.rooms (Period.elements a))
            = ids (Period.rooms (Period.elements b))).
Proof.
  intros a b. unfold Period.hasTheSameElementsAs.
  rewrite !andb_true_iff, !joinedIds_eq. tauto.
Qed.

(** X2: [hasTheSameElementsAs] is an equivalence relation on occurrences:
    reflexive, symmetric and transitive. *)
Theorem X2_hasTheSameElementsAs_equivalence :
  (forall a, Period.hasTheSameElementsAs a a = true)
  /\ (forall a b, Period.hasTheSameElementsAs a b
                  = Period.hasTheSameElementsAs b a)
  /\ (forall a b c,
         Period.hasTheSameElementsAs a b = true ->
         Period.hasTheSameElementsAs b c = true ->
         Period.hasTheSameElementsAs a c = true).
Proof.
  split; [|split].
  - apply hasTheSameElementsAs_refl.
  - apply hasTheSameElementsAs_sym.
  - apply hasTheSameElementsAs_trans.
Qed.

(** X2 on the two hours of the combinable pair. *)
Lemma X2_hasTheSameElementsAs_witness :
  Period.hasTheSameElementsAs firstHour thirdHour = true.
Proof.
  apply (proj2 (proj2 X2_hasTheSameElementsAs_equivalence)
           firstHour secondHour thirdHour); reflexivity.
Defined.

(** X3: for two occurrences that the constructor has returned,
    [hasTheSameElementsAs] holds exactly when, bucket by bucket, the
    buckets given to the two constructor calls hold the same element ids,
    each as often: the order in which the elements were given does not
    matter. *)
Theorem X3_hasTheSameElementsAs_ignores_input_order :
  forall (i1 i2 : Z) (lt1 lt2 : Period.lessonType)
         (lc1 lc2 : Period.lessonCode) (n1 n2 : Z) (txt1 txt2 : string)
         (sub1 sub2 : option string) (act1 act2 : Period.activityType)
         (sg1 sg2 : option string) (els1 els2 : Period.elementBuckets)
         (d1 s1 e1 d2 s2 e2 : string) (p1 p2 : Period.t),
    Period.new i1 lt1 lc1 n1 txt1 sub1 act1 sg1 els1 d1 s1 e1 = Return p1 ->
    Period.new i2 lt2 lc2 n2 txt2 sub2 act2 sg2 els2 d2 s2 e2 = Return p2 ->
    (Period.hasTheSameElementsAs p1 p2 = true <-> idsPermuted els1 els2).
Proof.
  intros until p2. intros H1 H2.
  apply new_returns in H1. destruct H1 as (_ & _ & _ & ->).
  apply new_returns in H2. destruct H2 as (_ & _ & _ & ->).
  rewrite hasTheSameElementsAs_ids. unfold idsPermuted. simpl.
  rewrite !ids_sort_eq_iff. tauto.
Qed.

(** X3 on two orders of the same buckets. *)
Lemma X3_hasTheSameElementsAs_ignores_input_order_witness :
  Period.hasTheSameElementsAs
    (testLesson 1 "2022-04-20" "12:00" "13:00" Period.regular
                (Period.sortBuckets unsortedBuckets))
    (testLesson 2 "2022-04-20" "13:00" "14:00" Period.regular
                (Period.sortBuckets unsortedBucketsAgain)) = true.
Proof.
  apply (proj2 (X3_hasTheSameElementsAs_ignores_input_order
           1 2 Period.lesson Period.lesson Period.regular Period.regular 1 1
           EmptyString EmptyString None None
           Period.Unterricht Period.Unterricht (Some "1"%string) (Some "1"%string)
           unsortedBuckets unsortedBucketsAgain
           "2022-04-20" "12:00" "13:00" "2022-04-20" "13:00" "14:00"
           _ _ eq_refl eq_refl)).
  repeat split; simpl.
  - apply perm_swap.
  - apply Permutation_sym.
    eapply perm_trans; [apply perm_skip, perm_swap|].
    eapply perm_trans; [apply perm_swap|]. apply perm_skip.
    apply Permutation_refl.
  - apply Permutation_refl.
  - apply Permutation_refl.
Defined.

(** ** Belonging to a schedule and combinability *)

Section ScheduleRelationFacts.

Import Period.

Variable tz : timeZone.

Lemma belongsToSameScheduleAs_iff (a b : t) :
  belongsToSameScheduleAs tz a b = true
  <-> (lessonNumber a = lessonNumber b
       /\ (exists w, getDay tz (date a) = Some w
                     /\ getDay tz (date b) = Some w)
       /\ startTime a = startTime b
       /\ endTime a = endTime b).
Proof.
  unfold belongsToSameScheduleAs, getStartTimeAsString, getEndTimeAsString.
  rewrite !andb_true_iff, Z.eqb_eq, !String.eqb_eq.
  assert (Hw : numberStrictEq (getDay tz (date a)) (getDay tz (date b)) = true
               <-> exists w, getDay tz (date a) = Some w
                             /\ getDay tz (date b) = Some w).
  { destruct (getDay tz (date a)) as [x|], (getDay tz (date b)) as [y|]; simpl;
      split; try discriminate;
      try (intros (w & H1 & H2); discriminate).
    - intros H. apply Z.eqb_eq in H. subst. eauto.
    - intros (w & H1 & H2). inversion H1. inversion H2. subst.
      apply Z.eqb_refl. }
  rewrite Hw. tauto.
Qed.

End ScheduleRelationFacts.

(** X4: in every time zone of the host, [belongsToSameScheduleAs] holds
    exactly when the lesson numbers are equal, the start time strings and
    the end time strings are equal, and both dates have a weekday and it
    is the same; the weekday is the local one, in the host's zone, of
    midnight UTC of the date, and the dates themselves may differ. The
    predicate is symmetric and transitive, and an occurrence belongs to
    its own schedule exactly when its date has a weekday, which is so for
    every constructed occurrence. *)
Theorem X4_belongsToSameScheduleAs_partial_equivalence :
  forall tz : timeZone,
  (forall a b,
      Period.belongsToSameScheduleAs tz a b = true
      <-> (Period.lessonNumber a = Period.lessonNumber b
           /\ (exists w, getDay tz (Period.date a) = Some w
                         /\ getDay tz (Period.date b) = Some w)
           /\ Period.startTime a = Period.startTime b
           /\ Period.endTime a = Period.endTime b))
  /\ (forall a b,
         Period.belongsToSameScheduleAs tz a b = true ->
         Period.belongsToSameScheduleAs tz b a = true)
  /\ (forall a b c,
         Period.belongsToSameScheduleAs tz a b = true ->
         Period.belongsToSameScheduleAs tz b c = true ->
         Period.belongsToSameScheduleAs tz a c = true)
  /\ (forall a,
         Period.belongsToSameScheduleAs tz a a = true
         <-> exists w, getDay tz (Period.date a) = Some w)
  /\ (forall a, constructed a ->
                Period.belongsToSameScheduleAs tz a a = true).
Proof.
  intros tz.
  split; [apply belongsToSameScheduleAs_iff|].
  split; [|split; [|split]].
  - intros a b H. apply belongsToSameScheduleAs_iff in H.
    destruct H as (Hn & (w & Ha & Hb) & Hs & He).
    apply belongsToSameScheduleAs_iff. repeat split; eauto.
  - intros a b c H K.
    apply belongsToSameScheduleAs_iff in H.
    destruct H as (Hn & (w & Ha & Hb) & Hs & He).
    apply belongsToSameScheduleAs_iff in K.
    destruct K as (Kn & (w' & Kb & Kc) & Ks & Ke).
    apply belongsToSameScheduleAs_iff.
    rewrite Hb in Kb. inversion Kb; subst w'.
    repeat split; try congruence. eauto.
  - intros a. rewrite belongsToSameScheduleAs_iff. split.
    + intros (_ & (w & Ha & _) & _). eauto.
    + intros (w & Ha). repeat split; eauto.
  - intros a [Ha _]. apply belongsToSameScheduleAs_iff.
    destruct (wellFormed_getDay tz a Ha) as [w Hw]. repeat split; eauto.
Qed.

(** X4 on the same hour one week apart, in the zone with the clock
    change. *)
Lemma X4_belongsToSameScheduleAs_witness :
  Period.belongsToSameScheduleAs centralEuropeSpring2022 nextWeek firstHour
  = true.
Proof.
  apply (proj1 (proj2 (X4_belongsToSameScheduleAs_partial_equivalence
                         centralEuropeSpring2022))
           firstHour nextWeek).
  reflexivity.
Defined.

(** West of UTC the local weekday is that of the day before, and a clock
    change to UTC moves it: the Wednesdays before and after the change do
    not belong to one schedule there. *)
Example wednesdays_across_the_clock_change :
  Period.belongsToSameScheduleAs azoresSpring2022
    wednesdayBeforeChange wednesdayAfterChange = false
  /\ Period.belongsToSameScheduleAs utc
       wednesdayBeforeChange wednesdayAfterChange = true.
Proof. split; reflexivity. Qed.

(** X5: two occurrences that can be combined do not belong to the same
    schedule, unless both have no duration and start together: if
    [canBeCombinedWith] and [belongsToSameScheduleAs] both hold, then each
    occurrence's start time equals its end time and the two start times are
    equal. An occurrence can be combined with itself exactly when its start
    time equals its end time. *)
Theorem X5_combinable_occurrences_are_in_different_schedules :
  (forall tz a b,
      Period.canBeCombinedWith a b = true ->
      Period.belongsToSameScheduleAs tz a b = true ->
      Period.startTime a = Period.endTime a
      /\ Period.startTime b = Period.endTime b
      /\ Period.startTime a = Period.startTime b)
  /\ (forall a,
         Period.canBeCombinedWith a a = true
         <-> Period.startTime a = Period.endTime a).
Proof.
  split.
  - intros tz a b Hc Hb.
    apply belongsToSameScheduleAs_iff in Hb.
    destruct Hb as (_ & _ & Hs & He).
    unfold Period.canBeCombinedWith, Period.getStartTimeAsString,
      Period.getEndTimeAsString in Hc.
    rewrite !andb_true_iff, orb_true_iff, !String.eqb_eq in Hc.
    destruct Hc as ((((_ & _) & Hadj) & _) & _).
    destruct Hadj as [H | H]; repeat split; congruence.
  - intros a.
    unfold Period.canBeCombinedWith, Period.getStartTimeAsString,
      Period.getEndTimeAsString, Period.getDateAsString.
    rewrite Z.eqb_refl, String.eqb_refl, lessonCode_eqb_refl,
      hasTheSameElementsAs_refl, orb_diag.
    simpl. rewrite !andb_true_r. apply String.eqb_eq.
Qed.

(** X5 on an occurrence of no duration. *)
Lemma X5_combinable_witness :
  Period.startTime instantAtNoon = Period.endTime instantAtNoon
  /\ Period.startTime instantAtNoon = Period.endTime instantAtNoon
  /\ Period.startTime instantAtNoon = Period.startTime instantAtNoon.
Proof.
  apply (proj1 X5_combinable_occurrences_are_in_different_schedules
           utc instantAtNoon instantAtNoon); reflexivity.
Defined.

(** ** The constructor's sort *)

Section ConstructorFacts.

Import Period.

Lemma new_of_constructed (p : t) :
  constructed p ->
  new (id p) (lessonType_ p) (lessonCode_ p) (lessonNumber p) (lessonText p)
      (substitutionText p) (activityType_ p) (studentGroup p) (elements p)
      (date p) (startTime p) (endTime p) = Return p.
Proof.
  intros [Hw Hs].
  destruct (wellFormed_parts p Hw) as (Hd & _).
  destruct (wellFormed_testTimes p Hw) as [Hst Het].
  rewrite new_total by assumption.
  rewrite (sortBuckets_fixpoint _ Hs). destruct p; reflexivity.
Qed.

End ConstructorFacts.

(** X6: constructing an occurrence again from the fields of an occurrence
    that the constructor has returned gives that same occurrence: the
    second sort leaves the buckets as they are and the three strings pass
    the tests again. *)
Theorem X6_construction_from_own_fields_is_identity :
  forall (i : Z) (lt : Period.lessonType) (lc : Period.lessonCode) (n : Z)
         (txt : string) (sub : option string) (act : Period.activityType)
         (sg : option string) (els : Period.elementBuckets) (d s e : string)
         (p : Period.t),
    Period.new i lt lc n txt sub act sg els d s e = Return p ->
    Period.new (Period.id p) (Period.lessonType_ p) (Period.lessonCode_ p)
               (Period.lessonNumber p) (Period.lessonText p)
               (Period.substitutionText p) (Period.activityType_ p)
               (Period.studentGroup p) (Period.elements p)
               (Period.date p) (Period.startTime p) (Period.endTime p)
    = Return p.
Proof.
  intros until p. intros H.
  apply new_of_constructed. eapply new_constructs. exact H.
Qed.

(** X6 on buckets given in descending order. *)
Lemma X6_construction_from_own_fields_witness :
  Period.new 1 Period.lesson Period.regular 1 "M" None Period.Unterricht None
             (Period.sortBuckets unsortedBuckets)
             "2022-04-20" "12:00" "13:00"
  = Period.new 1 Period.lesson Period.regular 1 "M" None Period.Unterricht None
               unsortedBuckets "2022-04-20" "12:00" "13:00".
Proof.
  exact (X6_construction_from_own_fields_is_identity
           1 Period.lesson Period.regular 1 "M" None Period.Unterricht None
           unsortedBuckets "2022-04-20" "12:00" "13:00" _ eq_refl).
Defined.

(** X7: the constructor's sort is stable: in every bucket of a constructed
    occurrence the elements that share an id stand in the order in which
    the input bucket had them. *)
Theorem X7_constructor_keeps_order_of_equal_ids :
  forall (i : Z) (lt : Period.lessonType) (lc : Period.lessonCode) (n : Z)
         (txt : string) (sub : option string) (act : Period.activityType)
         (sg : option string) (els : Period.elementBuckets) (d s e : string)
         (p : Period.t) (k : Z),
    Period.new i lt lc n txt sub act sg els d s e = Return p ->
    withId k (Period.classes (Period.elements p)) = withId k (Period.classes els)
    /\ withId k (Period.teachers (Period.elements p))
       = withId k (Period.teachers els)
    /\ withId k (Period.subjects (Period.elements p))
       = withId k (Period.subjects els)
    /\ withId k (Period.rooms (Period.elements p)) = withId k (Period.rooms els).
Proof.
  intros until k. intros H.
  apply new_returns in H. destruct H as (_ & _ & _ & ->). simpl.
  unfold withId. repeat split; apply sort_ids_stable.
Qed.

(** X7 on the two teachers of id 3 in [unsortedBuckets]. *)
Lemma X7_constructor_keeps_order_witness :
  map PeriodElement.name
      (withId 3 (Period.teachers (Period.sortBuckets unsortedBuckets)))
  = ["Mu"; "Mx"]%string.
Proof.
  etransitivity; [|reflexivity].
  exact (f_equal (map PeriodElement.name)
           (proj1 (proj2 (X7_constructor_keeps_order_of_equal_ids
              1 Period.lesson Period.regular 1 "M" None Period.Unterricht None
              unsortedBuckets "2022-04-20" "12:00" "13:00" _ 3 eq_refl)))).
Defined.

(** ** Combination beyond the adjacent pair *)

Section CombinationFacts.

Import Period.

Variable tz : timeZone.

(** Whatever the other occurrence, the result has the receiver's fields. *)
Lemma combineWith_receiver_fields (a b r : t) :
  constructed a -> combineWith tz a b = Return r ->
  r = withTimes a (startTime r) (endTime r).
Proof.
  intros [_ Hs]. unfold combineWith.
  destruct (sort (compareStarts tz) [a; b]) as [|x [|y rest]];
    try discriminate.
  intros H. apply new_returns in H. destruct H as (_ & _ & _ & ->).
  unfold withTimes. simpl. rewrite (sortBuckets_fixpoint _ Hs). reflexivity.
Qed.

Lemma withTimes_constructed (a : t) (s e : string) :
  constructed a -> testTime s = true -> testTime e = true ->
  constructed (withTimes a s e).
Proof.
  intros [Hw Hs] Hts Hte. split; [|exact Hs].
  destruct (wellFormed_parts a Hw) as (Hd & _).
  unfold wellFormed, withTimes. simpl. rewrite Hd, Hts, Hte. reflexivity.
Qed.

Lemma hasTheSameElementsAs_withTimes (a b : t) (s e : string) :
  hasTheSameElementsAs (withTimes a s e) b = hasTheSameElementsAs a b.
Proof. reflexivity. Qed.

Lemma deviatesFromSchedule_withTimes (a : t) (s e : string) :
  deviatesFromSchedule (withTimes a s e) = deviatesFromSchedule a.
Proof. reflexivity. Qed.

Lemma canBeCombinedWith_parts (a b : t) :
  canBeCombinedWith a b = true ->
  lessonNumber a = lessonNumber b /\ date a = date b
  /\ lessonCode_ a = lessonCode_ b /\ hasTheSameElementsAs a b = true.
Proof.
  unfold canBeCombinedWith, getDateAsString.
  rewrite !andb_true_iff, Z.eqb_eq, String.eqb_eq, lessonCode_eqb_eq.
  tauto.
Qed.

End CombinationFacts.

(** X8: [combineWith] does not test [canBeCombinedWith] and does not throw
    on constructed occurrences: for any two of them, in any time zone of
    the host, it returns the receiver with the start time of the one whose
    start instant (date and start time, read as local time of the host's
    zone) is earlier and the end time of the other; on equal instants the
    receiver counts as the earlier. The date is the receiver's, also when
    the other occurrence is on another day, and the result is again a
    constructed occurrence. *)
Theorem X8_combineWith_never_throws_on_constructed :
  forall (tz : timeZone) (a b : Period.t),
    constructed a -> constructed b ->
    exists ia ib,
      Period.getStartDateTimeValue tz a = Some ia
      /\ Period.getStartDateTimeValue tz b = Some ib
      /\ Period.combineWith tz a b =
           Return (if ia <=? ib
                   then withTimes a (Period.startTime a) (Period.endTime b)
                   else withTimes a (Period.startTime b) (Period.endTime a))
      /\ (forall r, Period.combineWith tz a b = Return r ->
                    constructed r /\ Period.date r = Period.date a).
Proof.
  intros tz a b Ha Hb.
  destruct (wellFormed_startValue tz a (proj1 Ha)) as (da & ma & _ & _ & Hia).
  destruct (wellFormed_startValue tz b (proj1 Hb)) as (db & mb & _ & _ & Hib).
  eexists. eexists. split; [exact Hia|]. split; [exact Hib|].
  pose proof (combineWith_any tz a b _ _ Ha Hb Hia Hib) as Hc.
  split; [exact Hc|].
  intros r Hr. rewrite Hc in Hr.
  destruct (wellFormed_testTimes a (proj1 Ha)) as [Hsa Hea].
  destruct (wellFormed_testTimes b (proj1 Hb)) as [Hsb Heb].
  destruct (_ <=? _); inversion Hr; subst; split;
    try reflexivity; apply withTimes_constructed; assumption.
Qed.

(** X8 on the two half hours around the clock change: the half hour in
    the skipped hour starts later than the half hour after it. *)
Lemma X8_combineWith_never_throws_witness :
  Period.combineWith centralEuropeSpring2022 halfHourInGap halfHourAfterGap
  = Return (withTimes halfHourInGap "03:00" "03:00").
Proof.
  destruct (X8_combineWith_never_throws_on_constructed
              centralEuropeSpring2022 halfHourInGap halfHourAfterGap)
    as (ia & ib & Hia & Hib & Hc & _).
  - split; [reflexivity | repeat split; constructor].
  - split; [reflexivity | repeat split; constructor].
  - rewrite Hc. inversion Hia; subst ia. inversion Hib; subst ib.
    reflexivity.
Defined.

(** X9: the combination of two constructed occurrences that satisfy
    [canBeCombinedWith] agrees with both of them in everything that
    [canBeCombinedWith] compares: lesson number, date, lesson code and
    element ids; whether it deviates from the schedule is decided by the
    receiver alone. *)
Theorem X9_combination_agrees_with_both_occurrences :
  forall (tz : timeZone) (a b r : Period.t),
    constructed a -> constructed b ->
    Period.canBeCombinedWith a b = true ->
    Period.combineWith tz a b = Return r ->
    (Period.lessonNumber r = Period.lessonNumber a
     /\ Period.lessonNumber r = Period.lessonNumber b)
    /\ (Period.date r = Period.date a /\ Period.date r = Period.date b)
    /\ (Period.lessonCode_ r = Period.lessonCode_ a
        /\ Period.lessonCode_ r = Period.lessonCode_ b)
    /\ (Period.hasTheSameElementsAs r a = true
        /\ Period.hasTheSameElementsAs r b = true)
    /\ Period.deviatesFromSchedule r = Period.deviatesFromSchedule a.
Proof.
  intros tz a b r Ha Hb Hc Hr.
  pose proof (combineWith_receiver_fields tz a b r Ha Hr) as E.
  destruct (canBeCombinedWith_parts a b Hc) as (Hn & Hd & Hcode & Hel).
  rewrite E.
  rewrite !hasTheSameElementsAs_withTimes, deviatesFromSchedule_withTimes.
  rewrite hasTheSameElementsAs_refl.
  unfold withTimes. simpl. repeat split; assumption.
Qed.

(** X9 on the two hours of the combinable pair. *)
Lemma X9_combination_agrees_witness :
  Period.hasTheSameElementsAs
    (withTimes secondHour "12:00" "14:00") firstHour = true.
Proof.
  apply (X9_combination_agrees_with_both_occurrences
           utc secondHour firstHour).
  - split; [reflexivity | repeat split; constructor].
  - split; [reflexivity | repeat split; constructor].
  - reflexivity.
  - reflexivity.
Defined.

(** X10: for two constructed occurrences that satisfy [canBeCombinedWith]
    and whose start instants differ, the two orders of [combineWith] give
    the same start and end time; each result keeps the other fields of its
    own receiver. *)
Theorem X10_combineWith_orders_give_the_same_span :
  forall (tz : timeZone) (a b : Period.t),
    constructed a -> constructed b ->
    Period.canBeCombinedWith a b = true ->
    Period.getStartDateTimeValue tz a <> Period.getStartDateTimeValue tz b ->
    exists s e,
      Period.combineWith tz a b = Return (withTimes a s e)
      /\ Period.combineWith tz b a = Return (withTimes b s e).
Proof.
  intros tz a b Ha Hb Hc Hdiff.
  destruct (wellFormed_startValue tz a (proj1 Ha)) as (da & ta & _ & _ & Hia).
  destruct (wellFormed_startValue tz b (proj1 Hb)) as (db & tb & _ & _ & Hib).
  rewrite (combineWith_any tz a b _ _ Ha Hb Hia Hib).
  rewrite (combineWith_any tz b a _ _ Hb Ha Hib Hia).
  rewrite Hia, Hib in Hdiff.
  match goal with
  | |- context [?x <=? ?y] =>
      assert (Hne : x <> y) by congruence;
      destruct (Z.leb_spec x y) as [Hle | Hgt]
  end.
  - match goal with
    | |- context [?y <=? ?x] =>
        assert (E : (y <=? x) = false) by (apply Z.leb_gt; lia)
    end.
    rewrite E. eauto.
  - match goal with
    | |- context [?y <=? ?x] =>
        assert (E : (y <=? x) = true) by (apply Z.leb_le; lia)
    end.
    rewrite E. eauto.
Qed.

(** X10 on the two hours of the combinable pair. *)
Lemma X10_combineWith_orders_witness :
  exists s e,
    Period.combineWith centralEuropeSpring2022 firstHour secondHour
    = Return (withTimes firstHour s e)
    /\ Period.combineWith centralEuropeSpring2022 secondHour firstHour
       = Return (withTimes secondHour s e).
Proof.
  apply X10_combineWith_orders_give_the_same_span.
  - split; [reflexivity | repeat split; constructor].
  - split; [reflexivity | repeat split; constructor].
  - reflexivity.
  - discriminate.
Defined.

(** When the two start instants are equal the order matters: with an
    occurrence of no duration as the receiver the result covers the hour,
    in the other order it has no duration. *)
Example combineWith_orders_differ_on_equal_starts :
  Period.canBeCombinedWith instantAtNoon firstHour = true
  /\ Period.combineWith utc instantAtNoon firstHour
     = Return (withTimes instantAtNoon "12:00" "13:00")
  /\ Period.combineWith utc firstHour instantAtNoon
     = Return (withTimes firstHour "12:00" "12:00").
Proof. repeat split. Qed.

(** X11: combination can be repeated: if [a] can be combined with [b] and
    [b] with [c], all three constructed, and [c] starts at the end time of
    the combination of [a] and [b] or ends at its start time, then that
    combination can be combined with [c]. *)
Theorem X11_combination_can_be_combined_further :
  forall (tz : timeZone) (a b c r : Period.t),
    constructed a -> constructed b ->
    Period.canBeCombinedWith a b = true ->
    Period.canBeCombinedWith b c = true ->
    Period.combineWith tz a b = Return r ->
    (Period.endTime r = Period.startTime c
     \/ Period.startTime r = Period.endTime c) ->
    Period.canBeCombinedWith r c = true.
Proof.
  intros tz a b c r Ha Hb Hab Hbc Hr Hadj.
  pose proof (combineWith_receiver_fields tz a b r Ha Hr) as E.
  destruct (canBeCombinedWith_parts a b Hab) as (Hn & Hd & Hcode & Hel).
  destruct (canBeCombinedWith_parts b c Hbc) as (Kn & Kd & Kcode & Kel).
  pose proof (hasTheSameElementsAs_trans a b c Hel Kel) as Hac.
  unfold Period.canBeCombinedWith, Period.getDateAsString,
    Period.getStartTimeAsString, Period.getEndTimeAsString.
  rewrite !andb_true_iff, orb_true_iff, Z.eqb_eq, !String.eqb_eq,
    lessonCode_eqb_eq.
  rewrite E at 1 2 5 6. rewrite hasTheSameElementsAs_withTimes.
  unfold withTimes. simpl.
  repeat split; try congruence.
  destruct Hadj as [H | H]; [right | left]; congruence.
Qed.

(** X11 on three consecutive hours of one day. *)
Lemma X11_combination_can_be_combined_further_witness :
  Period.canBeCombinedWith (withTimes firstHour "12:00" "14:00") thirdHour
  = true.
Proof.
  apply (X11_combination_can_be_combined_further
           utc firstHour secondHour thirdHour).
  - split; [reflexivity | repeat split; constructor].
  - split; [reflexivity | repeat split; constructor].
  - reflexivity.
  - reflexivity.
  - reflexivity.
  - left. reflexivity.
Defined.

(** X17: where the host's zone has the same offset at the starts of two
    constructed occurrences that satisfy [canBeCombinedWith] (no clock
    change between them), and each of the two starts before it ends, their
    combination also starts before it ends and lasts as long as the two
    together. *)
Theorem X17_combination_lasts_as_long_as_both :
  forall (tz : timeZone) (a b r : Period.t),
    constructed a -> constructed b ->
    Period.canBeCombinedWith a b = true ->
    sameOffsetAtStarts tz a b ->
    startsBeforeEnd a = true -> startsBeforeEnd b = true ->
    Period.combineWith tz a b = Return r ->
    startsBeforeEnd r = true /\ duration r = duration a + duration b.
Proof.
  intros tz a b r Ha Hb Hc Hoff Hda Hdb Hr.
  pose proof (canBeCombinedWith_same_date a b Hc) as Hd.
  destruct (wellFormed_parts a (proj1 Ha))
    as (_ & _ & (ta & Hta) & (ea & Hea)).
  destruct (wellFormed_parts b (proj1 Hb))
    as (_ & _ & (tb & Htb) & (eb & Heb)).
  destruct (wellFormed_startValue tz a (proj1 Ha)) as (da & ta' & _ & _ & Hia).
  destruct (wellFormed_startValue tz b (proj1 Hb)) as (db & tb' & _ & _ & Hib).
  rewrite (combineWith_any tz a b _ _ Ha Hb Hia Hib) in Hr.
  destruct (instants_in_order_of_times tz a b _ _ ta tb Hd Hoff Hia Hib Hta Htb)
    as [Hord _].
  rewrite Hord in Hr.
  unfold startsBeforeEnd, duration in *.
  rewrite Hta, Hea in *. rewrite Htb, Heb in *.
  apply Z.ltb_lt in Hda, Hdb.
  assert (Hadj : ta = eb \/ tb = ea).
  { unfold Period.canBeCombinedWith, Period.getStartTimeAsString,
      Period.getEndTimeAsString in Hc.
    rewrite !andb_true_iff, orb_true_iff, !String.eqb_eq in Hc.
    destruct Hc as ((((_ & _) & [H | H]) & _) & _).
    - left. rewrite H, Heb in Hta. congruence.
    - right. rewrite H, Hea in Htb. congruence. }
  destruct (Z.leb_spec ta tb) as [Hle | Hgt];
    inversion Hr; subst r; clear Hr; unfold withTimes; simpl.
  - rewrite Hta, Heb. split; [apply Z.ltb_lt|]; lia.
  - rewrite Htb, Hea. split; [apply Z.ltb_lt|]; lia.
Qed.

(** X17 on the two hours of the combinable pair, in the zone with the
    clock change on a day without one: two hours together. *)
Lemma X17_combination_lasts_witness :
  startsBeforeEnd (withTimes firstHour "12:00" "14:00") = true
  /\ duration (withTimes firstHour "12:00" "14:00")
     = duration firstHour + duration secondHour.
Proof.
  apply (X17_combination_lasts_as_long_as_both
           centralEuropeSpring2022 firstHour secondHour).
  - split; [reflexivity | repeat split; constructor].
  - split; [reflexivity | repeat split; constructor].
  - reflexivity.
  - reflexivity.
  - reflexivity.
  - reflexivity.
  - reflexivity.
Defined.

(** ** From the raw record to the occurrence *)

Section FromFacts.

Import Period.

Lemma existsb_permutation {A : Type} (f : A -> bool) (l1 l2 : list A) :
  Permutation l1 l2 -> existsb f l1 = existsb f l2.
Proof.
  induction 1 as [|x l1 l2 _ IH|x y l|l1 l2 l3 _ IH1 _ IH2]; simpl.
  - reflexivity.
  - rewrite IH. reflexivity.
  - destruct (f x), (f y); reflexivity.
  - congruence.
Qed.

Lemma isSubstituted_from (e : PeriodElement.element) :
  PeriodElement.isSubstituted (PeriodElement.from e)
  = PeriodFrom.rawSubstituted e.
Proof.
  unfold PeriodFrom.rawSubstituted.
  destruct (PeriodElement.isSubstituted (PeriodElement.from e)) eqn:E.
  - apply from_substituted_iff in E. symmetry. exact E.
  - destruct (PeriodElement.truthyNumber (PeriodElement.orgid e)
              && PeriodElement.truthyString (PeriodElement.orgname e)) eqn:K;
      [|reflexivity].
    apply from_substituted_iff in K. congruence.
Qed.

Lemma existsb_isSubstituted_sorted (l : list PeriodElement.element) :
  existsb PeriodElement.isSubstituted
          (sort compareIds (map PeriodElement.from l))
  = existsb PeriodFrom.rawSubstituted l.
Proof.
  rewrite <- (existsb_permutation _ _ _ (sort_perm compareIds _)).
  induction l as [|e l IH]; simpl; [reflexivity|].
  rewrite isSubstituted_from, IH. reflexivity.
Qed.

Lemma present_orNull (o : option string) :
  PeriodElement.present (PeriodFrom.orNull o) = PeriodElement.truthyString o.
Proof.
  destruct o as [s|]; simpl; [|reflexivity].
  destruct (String.eqb s EmptyString); reflexivity.
Qed.

Lemma lessonCodeOf_not_regular (o : option string) :
  negb (lessonCode_eqb (PeriodFrom.lessonCodeOf o) regular)
  = PeriodFrom.isLiteral o "cancelled" || PeriodFrom.isLiteral o "irregular".
Proof.
  unfold PeriodFrom.lessonCodeOf.
  destruct (PeriodFrom.isLiteral o "cancelled"); [reflexivity|].
  destruct (PeriodFrom.isLiteral o "irregular"); reflexivity.
Qed.

End FromFacts.

(** X12: an occurrence that [Period.from] returns deviates from its
    schedule exactly when the raw record has a non-empty substitution text,
    or its code is cancelled or irregular, or one of its elements (of any
    of the four lists) has a truthy original id and a truthy original name.
    An empty substitution text counts as none. *)
Theorem X12_from_deviates_iff_raw_record_shows_substitution :
  forall (untisDate untisTime : Type)
         (formatUntisDate : untisDate -> string)
         (formatUntisTime : untisTime -> string)
         (p : PeriodFrom.period untisDate untisTime) (r : Period.t),
    PeriodFrom.from formatUntisDate formatUntisTime p = Return r ->
    Period.deviatesFromSchedule r
    = PeriodElement.truthyString (PeriodFrom.substText p)
      || (PeriodFrom.isLiteral (PeriodFrom.code p) "cancelled"
          || PeriodFrom.isLiteral (PeriodFrom.code p) "irregular")
      || (existsb PeriodFrom.rawSubstituted (PeriodFrom.kl p)
          || existsb PeriodFrom.rawSubstituted (PeriodFrom.te p)
          || existsb PeriodFrom.rawSubstituted (PeriodFrom.su p)
          || existsb PeriodFrom.rawSubstituted (PeriodFrom.ro p)).
Proof.
  intros until r. unfold PeriodFrom.from. intros H.
  apply new_returns in H. destruct H as (_ & _ & _ & ->).
  unfold Period.deviatesFromSchedule, Period.allElements. simpl.
  rewrite present_orNull, lessonCodeOf_not_regular.
  rewrite !existsb_app, !existsb_isSubstituted_sorted.
  rewrite !orb_assoc. reflexivity.
Qed.

(** X12 on a raw period with an empty substitution text and a substitute
    teacher. *)
Lemma X12_from_deviates_witness :
  exists r,
    PeriodFrom.from PeriodFrom.sampleFormatDate PeriodFrom.sampleFormatTime
                    PeriodFrom.samplePeriod = Return r
    /\ Period.deviatesFromSchedule r = true
    /\ Period.substitutionText r = None.
Proof.
  eexists. split; [reflexivity|]. split; [|reflexivity].
  rewrite (X12_from_deviates_iff_raw_record_shows_substitution
             Z Z PeriodFrom.sampleFormatDate PeriodFrom.sampleFormatTime
             PeriodFrom.samplePeriod _ eq_refl).
  reflexivity.
Defined.

(** X13: [Period.from] throws exactly when the formatted date or one of
    the two formatted times is malformed. When it returns, the classes,
    teachers, subjects and rooms of the occurrence are the converted
    elements of the raw lists [kl], [te], [su] and [ro], each list
    rearranged in ascending order of the ids, and the times and the date
    are the formatted strings. *)
Theorem X13_from_validates_and_routes_elements :
  forall (untisDate untisTime : Type)
         (formatUntisDate : untisDate -> string)
         (formatUntisTime : untisTime -> string)
         (p : PeriodFrom.period untisDate untisTime),
    (isReturn (PeriodFrom.from formatUntisDate formatUntisTime p)
     = testDate (formatUntisDate (PeriodFrom.raw_date p))
       && testTime (formatUntisTime (PeriodFrom.raw_startTime p))
       && testTime (formatUntisTime (PeriodFrom.raw_endTime p)))
    /\ (forall r,
           PeriodFrom.from formatUntisDate formatUntisTime p = Return r ->
           bucketsPermuted
             {| Period.classes := map PeriodElement.from (PeriodFrom.kl p);
                Period.teachers := map PeriodElement.from (PeriodFrom.te p);
                Period.subjects := map PeriodElement.from (PeriodFrom.su p);
                Period.rooms := map PeriodElement.from (PeriodFrom.ro p) |}
             (Period.elements r)
           /\ bucketsSorted (Period.elements r)
           /\ Period.date r = formatUntisDate (PeriodFrom.raw_date p)
           /\ Period.startTime r = formatUntisTime (PeriodFrom.raw_startTime p)
           /\ Period.endTime r = formatUntisTime (PeriodFrom.raw_endTime p)).
Proof.
  intros. split.
  - unfold PeriodFrom.from, Period.new.
    destruct (testDate _), (testTime _), (testTime _); reflexivity.
  - intros r H. unfold PeriodFrom.from in H.
    apply new_returns in H. destruct H as (_ & _ & _ & ->). simpl.
    split; [|split; [|auto]].
    + apply (sortBuckets_perm
               {| Period.classes := map PeriodElement.from (PeriodFrom.kl p);
                  Period.teachers := map PeriodElement.from (PeriodFrom.te p);
                  Period.subjects := map PeriodElement.from (PeriodFrom.su p);
                  Period.rooms := map PeriodElement.from (PeriodFrom.ro p) |}).
    + apply sortBuckets_sorted.
Qed.

(** X13 on the raw period of two teachers. *)
Lemma X13_from_validates_witness :
  exists r,
    PeriodFrom.from PeriodFrom.sampleFormatDate PeriodFrom.sampleFormatTime
                    PeriodFrom.samplePeriod = Return r
    /\ map PeriodElement.id (Period.teachers (Period.elements r)) = [5; 9]
    /\ bucketsSorted (Period.elements r).
Proof.
  eexists. split; [reflexivity|]. split; [reflexivity|].
  apply (proj2 (X13_from_validates_and_routes_elements
                  Z Z PeriodFrom.sampleFormatDate PeriodFrom.sampleFormatTime
                  PeriodFrom.samplePeriod) _ eq_refl).
Defined.

Import FurtherTransport.

(** ** The transport: the cookie store *)

Section TransportFacts.

Import RPCClient.

Lemma names_perm (c : cookieStore) : Permutation (map fst c) (names c).
Proof. unfold names. apply Permutation_map, entries_perm. Qed.

Lemma ownNames_defineOwn (n v : string) (c : cookieStore) :
  map fst (defineOwn n v c)
  = map fst c ++ (if existsb (String.eqb n) (map fst c) then [] else [n]).
Proof.
  induction c as [|[k w] rest IH]; simpl; [reflexivity|].
  rewrite (String.eqb_sym n k).
  destruct (String.eqb k n) eqn:E; simpl.
  - rewrite app_nil_r. reflexivity.
  - rewrite IH. reflexivity.
Qed.

Lemma ownNames_assign_keeps (n v : string) (c : cookieStore) (k : string) :
  In k (map fst c) -> In k (map fst (assign n v c)).
Proof.
  unfold assign. destruct (String.eqb n protoName); [auto|].
  rewrite ownNames_defineOwn. intros H. apply in_or_app. auto.
Qed.

Lemma ownNames_assign_nodup (n v : string) (c : cookieStore) :
  NoDup (map fst c) -> NoDup (map fst (assign n v c)).
Proof.
  intros H. unfold assign. destruct (String.eqb n protoName); [exact H|].
  rewrite ownNames_defineOwn.
  destruct (existsb (String.eqb n) (map fst c)) eqn:E.
  - rewrite app_nil_r. exact H.
  - apply NoDup_app; [exact H | repeat constructor; intros [] |].
    intros x Hx [Heq | []]. subst x.
    assert (K : existsb (String.eqb n) (map fst c) = true)
      by (apply existsb_exists; exists n; split;
          [assumption | apply String.eqb_refl]).
    congruence.
Qed.

Lemma ownNames_assign_no_proto (n v : string) (c : cookieStore) :
  ~ In protoName (map fst c) -> ~ In protoName (map fst (assign n v c)).
Proof.
  intros H. unfold assign.
  destruct (String.eqb n protoName) eqn:E; [exact H|].
  rewrite ownNames_defineOwn. intros K. apply in_app_or in K.
  destruct K as [K | K]; [auto|].
  destruct (existsb (String.eqb n) (map fst c)); [contradiction|].
  destruct K as [K | []]. subst n. rewrite String.eqb_refl in E.
  discriminate.
Qed.

Lemma storeAfter_cases (c : cookieStore) (r : response) :
  storeAfter c r = if succeeds r then capture c (setCookies r) else c.
Proof.
  destruct (succeeds r) eqn:E.
  - apply storeAfter_success. exact E.
  - apply storeAfter_failure. exact E.
Qed.

(** A property of the own names that every assignment keeps is kept by
    every call. *)
Lemma storeAfter_keeps (Q : list string -> Prop) :
  (forall n v c, Q (map fst c) -> Q (map fst (assign n v c))) ->
  forall c r, Q (map fst c) -> Q (map fst (storeAfter c r)).
Proof.
  intros Hstep c r H. rewrite storeAfter_cases.
  destruct (succeeds r); [|exact H].
  unfold capture. generalize dependent c.
  induction (setCookies r) as [|[n v] cs IH]; intros c H; simpl; [exact H|].
  apply IH, Hstep, H.
Qed.

End TransportFacts.

(** X15: the client never removes a cookie and never stores a name twice:
    a name that the [Cookie] header lists before a call is listed after
    it, whatever the answer, and a header without a repeated name stays
    so. The header of a client that started empty has one entry for each
    stored name, no name twice and never the name [__proto__], whatever
    the answers were. *)
Theorem X15_cookie_names_only_grow_and_stay_distinct :
  (forall (c : RPCClient.cookieStore) (r : RPCClient.response) (n : string),
      In n (names c) -> In n (names (RPCClient.storeAfter c r)))
  /\ (forall (c : RPCClient.cookieStore) (r : RPCClient.response),
         NoDup (names c) -> NoDup (names (RPCClient.storeAfter c r)))
  /\ (forall rs : list RPCClient.response,
         NoDup (names (RPCClient.storeAfterAll RPCClient.new rs))
         /\ ~ In RPCClient.protoName
                 (names (RPCClient.storeAfterAll RPCClient.new rs))
         /\ List.length (RPCClient.cookieEntries
                           (RPCClient.storeAfterAll RPCClient.new rs))
            = List.length (names (RPCClient.storeAfterAll RPCClient.new rs))).
Proof.
  split; [|split].
  - intros c r n H.
    eapply Permutation_in; [apply names_perm|].
    apply (storeAfter_keeps (fun l => In n l)).
    + intros k v c'. apply ownNames_assign_keeps.
    + eapply Permutation_in; [apply Permutation_sym, names_perm | exact H].
  - intros c r H.
    eapply Permutation_NoDup; [apply names_perm|].
    apply (storeAfter_keeps (fun l => NoDup l)).
    + intros k v c'. apply ownNames_assign_nodup.
    + eapply Permutation_NoDup; [apply Permutation_sym, names_perm | exact H].
  - intros rs.
    assert (G : forall c, goodNames (map fst c) ->
                          goodNames (map fst (RPCClient.storeAfterAll c rs))).
    { unfold RPCClient.storeAfterAll.
      induction rs as [|r rs IH]; intros c H; simpl; [exact H|].
      apply IH. apply (storeAfter_keeps goodNames); [|exact H].
      intros k v c' [H1 H2]. split.
      - apply ownNames_assign_nodup, H1.
      - apply ownNames_assign_no_proto, H2. }
    destruct (G RPCClient.new) as [G1 G2].
    { split; [constructor | intros []]. }
    split; [|split].
    + eapply Permutation_NoDup; [apply names_perm | exact G1].
    + intros K. apply G2.
      eapply Permutation_in; [apply Permutation_sym, names_perm | exact K].
    + unfold RPCClient.cookieEntries, names. rewrite !length_map.
      reflexivity.
Qed.

(** X15 on a store that has the session cookie. *)
Lemma X15_cookie_names_witness :
  In "JSESSIONID"%string
     (names (RPCClient.storeAfter
               (RPCClient.storeAfter RPCClient.new okResponse)
               twoSessionCookies)).
Proof.
  apply (proj1 X15_cookie_names_only_grow_and_stay_distinct).
  left. reflexivity.
Defined.

(** X16: after a successful response the store holds, for every name other
    than [__proto__], the value of the last cookie of that name in the
    response, and for a name that the response does not set the value it
    held before; the name [__proto__] is left as it was; after any other
    response the store holds what it held before. *)
Theorem X16_store_holds_last_value_set :
  forall (c : RPCClient.cookieStore) (r : RPCClient.response) (n : string),
    RPCClient.lookup n (RPCClient.storeAfter c r)
    = if RPCClient.succeeds r
      then (if String.eqb n RPCClient.protoName
            then RPCClient.lookup n c
            else match RPCClient.lastSet n (RPCClient.setCookies r) with
                 | Some nv => Some (snd nv)
                 | None => RPCClient.lookup n c
                 end)
      else RPCClient.lookup n c.
Proof.
  intros c r n. rewrite storeAfter_cases.
  destruct (RPCClient.succeeds r); [|reflexivity].
  apply lookup_capture_last.
Qed.
